(** * Grammar Guru call server: users, call sessions and their HTTP handlers

    A shallow embedding of [src/server.js].  The Express handlers are
    written in a small state-and-exception monad over a [World] holding the
    two Mongo collections, the ObjectId counter and the trace of requests
    sent to the voice provider.  Everything the handlers cannot decide on
    their own comes from an [Env]: the configured API key, the provider's
    answer to an outbound request, and the clock.

    Conventions of the model
    - a JSON field is an [option string]: [None] is JavaScript's
      [undefined], so [!x] holds for [None] and for [Some ""];
    - a [Date] is its number of milliseconds, a [Z]; within one request all
      clock reads give [now];
    - the collections are lists in insertion order, [findOne] returns the
      first match, and the store enforces what the schemas declare
      ([required], [unique]) and is otherwise reliable;
    - the [_id] of user documents is never read by the program and is left
      out. *)

From Stdlib Require Import String ZArith List Bool Lia.
Import ListNotations.

#[local] Open Scope string_scope.
#[local] Open Scope Z_scope.

(** ** JavaScript values and errors *)

(** [truthy v] is the outcome of [if (v)] for a string-or-undefined value. *)
Definition truthy (v : option string) : bool :=
  match v with
  | Some s => negb (s =? "")%string
  | None => false
  end.

(** The string carried by a truthy value, [None] when [!v] holds. *)
Definition nonempty (v : option string) : option string :=
  match v with
  | Some s => if (s =? "")%string then None else Some s
  | None => None
  end.

(** [error.code]: absent, a string (axios) or a number (the Mongo driver). *)
Inductive JsCode :=
| code_undefined
| code_str (s : string)
| code_num (n : Z).

(** [error.response]: the upstream HTTP status and [data.detail]. *)
Record ErrorResponse := {
  resp_status : Z;
  resp_detail : option string
}.

Record JsError := {
  err_response : option ErrorResponse;
  err_code : JsCode;
  err_message : string
}.

Inductive Outcome (A : Type) :=
| Returned (a : A)
| Thrown (e : JsError).
Arguments Returned {A} a.
Arguments Thrown {A} e.

(** ** Data model (the two mongoose schemas) *)

Record User := {
  username : string;
  mobile : string;
  password : string
}.

Inductive Status := initiated | active | completed | failed.

Inductive Speaker := speaker_user | speaker_agent | speaker_system.

Record LogEntry := {
  timestamp : Z;
  speaker : Speaker;
  message : string
}.

Record CallSession := {
  _id : nat;
  callId : string;
  phoneNumber : string;
  status : Status;
  startTime : Z;
  endTime : option Z;
  duration : option Z;
  conversationLog : list LogEntry;
  createdAt : Z
}.

(** ** The provider (axios) *)

Inductive RequestBody :=
| CallData (agent_id agent_phone_number_id to_number : string)
| EmptyBody.

Record OutboundRequest := {
  url : string;
  data : RequestBody;
  xi_api_key : option string;
  timeout : option Z
}.

(** [response.data]: the field the server reads, and the rest of the
    payload, which it never inspects. *)
Record ProviderData := {
  conversation_id : option string;
  payload : string
}.

(** ** Environment and world *)

Record Env := {
  ELEVENLABS_API_KEY : option string;
  provider : OutboundRequest -> Outcome ProviderData;
  now : Z
}.

Record World := {
  users : list User;
  sessions : list CallSession;
  next_id : nat;
  outbound : list OutboundRequest
}.

Definition init : World :=
  {| users := []; sessions := []; next_id := 0%nat; outbound := [] |}.

Definition set_users (us : list User) (w : World) : World :=
  {| users := us; sessions := sessions w;
     next_id := next_id w; outbound := outbound w |}.

Definition set_sessions (ss : list CallSession) (w : World) : World :=
  {| users := users w; sessions := ss;
     next_id := next_id w; outbound := outbound w |}.

(** ** The handler monad: state that survives a throw *)

Definition M (A : Type) : Type := Env -> World -> Outcome A * World.

Definition ret {A} (a : A) : M A := fun _ w => (Returned a, w).

Definition bind {A B} (m : M A) (k : A -> M B) : M B :=
  fun env w =>
    match m env w with
    | (Returned a, w') => k a env w'
    | (Thrown e, w') => (Thrown e, w')
    end.

Definition throw {A} (e : JsError) : M A := fun _ w => (Thrown e, w).

Definition try_catch {A} (body : M A) (handler : JsError -> M A) : M A :=
  fun env w =>
    match body env w with
    | (Returned a, w') => (Returned a, w')
    | (Thrown e, w') => handler e env w'
    end.

Notation "x <- m ;; k" := (bind m (fun x => k))
  (at level 61, m at next level, right associativity).

(** ** The document store *)

(** What [save] rejects with: a mongoose validation error carries no code,
    a duplicate key is the driver's error 11000.  The texts are the
    libraries', not the program's. *)
Definition ValidationError (model : string) : JsError :=
  {| err_response := None;
     err_code := code_undefined;
     err_message := model ++ " validation failed" |}.

Definition DuplicateKeyError (index : string) : JsError :=
  {| err_response := None;
     err_code := code_num 11000;
     err_message := "E11000 duplicate key error index: " ++ index |}.

(** First document of a collection with the given key. *)
Definition find_user (name : string) (us : list User) : option User :=
  find (fun u => (username u =? name)%string) us.

Definition find_session (cid : string) (ss : list CallSession)
  : option CallSession :=
  find (fun s => (callId s =? cid)%string) ss.

Definition User_findOne (name : string) : M (option User) :=
  fun _ w => (Returned (find_user name (users w)), w).

(** [new User({...}).save()]: the three paths are [required], [username]
    is [unique]. *)
Definition User_save (u : User) : M unit :=
  fun _ w =>
    if ((username u =? "") || (mobile u =? "") || (password u =? ""))%string
    then (Thrown (ValidationError "User"), w)
    else if existsb (fun v => (username v =? username u)%string) (users w)
    then (Thrown (DuplicateKeyError "username_1"), w)
    else (Returned tt, set_users (users w ++ [u]) w).

Definition CallSession_findOne (cid : string) : M (option CallSession) :=
  fun _ w => (Returned (find_session cid (sessions w)), w).

(** [new CallSession({callId, phoneNumber, status, conversationLog})]: the
    document gets a fresh [_id] and the schema defaults ([startTime],
    [createdAt] and each log entry's [timestamp] are [Date.now]).  An
    undefined [callId] is kept as the empty string, which [required]
    rejects just the same. *)
Definition new_CallSession (cid : option string) (phone : string)
    (st : Status) (log : list (Speaker * string)) : M CallSession :=
  fun env w =>
    (Returned
       {| _id := next_id w;
          callId := match cid with Some c => c | None => "" end;
          phoneNumber := phone;
          status := st;
          startTime := now env;
          endTime := None;
          duration := None;
          conversationLog :=
            map (fun e => {| timestamp := now env;
                             speaker := fst e;
                             message := snd e |}) log;
          createdAt := now env |},
     {| users := users w; sessions := sessions w;
        next_id := S (next_id w); outbound := outbound w |}).

(** [doc.save()].  A new document is validated ([callId] and [phoneNumber]
    are [required], [callId] is [unique]) and appended.  A document that
    came from [findOne] replaces the stored one with its [_id]; only its
    modified paths are validated, and the values the handlers assign are
    valid by their types. *)
Definition CallSession_save (isNew : bool) (doc : CallSession) : M unit :=
  fun _ w =>
    if isNew then
      if ((callId doc =? "") || (phoneNumber doc =? ""))%string
      then (Thrown (ValidationError "CallSession"), w)
      else if existsb (fun s => (callId s =? callId doc)%string) (sessions w)
      then (Thrown (DuplicateKeyError "callId_1"), w)
      else (Returned tt, set_sessions (sessions w ++ [doc]) w)
    else
      (Returned tt,
       set_sessions
         (map (fun s => if (_id s =? _id doc)%nat then doc else s)
              (sessions w)) w).

(** [axios.post(url, data, {headers, timeout})]: the request is sent (and
    recorded), the provider's answer is returned or thrown. *)
Definition axios_post (u : string) (d : RequestBody)
    (key : option string) (t : option Z) : M ProviderData :=
  fun env w =>
    let rq := {| url := u; data := d; xi_api_key := key; timeout := t |} in
    (provider env rq,
     {| users := users w; sessions := sessions w;
        next_id := next_id w; outbound := outbound w ++ [rq] |}).

Definition process_env_ELEVENLABS_API_KEY : M (option string) :=
  fun env w => (Returned (ELEVENLABS_API_KEY env), w).

Definition Date_now : M Z := fun env w => (Returned (now env), w).

(** ** HTTP responses *)

Inductive Body :=
| Failure (error : string)
    (* {success: false, error} *)
| UserOk (username mobile : string)
    (* {success: true, user: {username, mobile}} *)
| CallOk (message : string) (callId : option string) (sessionId : nat)
    (* {success: true, message, callId, sessionId} *)
| StatusOk (callStatus : Status) (duration : option Z)
    (startTime : Z) (endTime : option Z)
    (* {success: true, callStatus, duration, startTime, endTime} *)
| EndOk (message : string)
    (* {success: true, message} *)
| Health (message : string) (timestamp : Z) (apiKeyConfigured : bool).
    (* {status: 'ok', message, timestamp, apiKeyConfigured} *)

Record Response := {
  statusCode : Z;
  json : Body
}.

(** [res.status(code).json(body)] and [res.json(body)]. *)
Definition res_status_json (code : Z) (b : Body) : Response :=
  {| statusCode := code; json := b |}.

Definition res_json (b : Body) : Response := res_status_json 200 b.

(** [body.success] as the client reads it. *)
Definition success (r : Response) : bool :=
  match json r with
  | Failure _ => false
  | Health _ _ _ => false
  | _ => true
  end.

(** ** The handlers *)

(** [POST /api/register] *)
Definition register (username mobile password : option string) : M Response :=
  try_catch
    (match nonempty username, nonempty mobile, nonempty password with
     | Some username, Some mobile, Some password =>
         existingUser <- User_findOne username ;;
         match existingUser with
         | Some _ =>
             ret (res_status_json 409 (Failure "Username already exists."))
         | None =>
             let user := {| username := username; mobile := mobile;
                            password := password |} in
             _ <- User_save user ;;
             ret (res_json (UserOk username mobile))
         end
     | _, _, _ =>
         ret (res_status_json 400 (Failure "All fields are required."))
     end)
    (fun err => ret (res_status_json 500 (Failure "Registration failed."))).

(** [POST /api/login] *)
Definition login (username password : option string) : M Response :=
  try_catch
    (match nonempty username, nonempty password with
     | Some username, Some password =>
         user <- User_findOne username ;;
         match user with
         | Some {| username := user_username; mobile := user_mobile;
                   password := user_password |} =>
             if negb (user_password =? password)%string
             then ret (res_status_json 401
                         (Failure "Invalid username or password."))
             else ret (res_json (UserOk user_username user_mobile))
         | None =>
             ret (res_status_json 401
                    (Failure "Invalid username or password."))
         end
     | _, _ =>
         ret (res_status_json 400 (Failure "All fields are required."))
     end)
    (fun err => ret (res_status_json 500 (Failure "Login failed."))).

Definition AGENT_ID : string := "agent_5401k1aqhf5jfr0rfkawahmpm1w0".
Definition PHONE_NUMBER_ID : string := "phnum_3701k1asdcmweq3bxqr3hn9pnesy".

(** [error.response?.status === n] *)
Definition response_status_is (error : JsError) (n : Z) : bool :=
  match err_response error with
  | Some r => resp_status r =? n
  | None => false
  end.

(** [error.response?.data?.detail] *)
Definition response_detail (error : JsError) : option string :=
  match err_response error with
  | Some r => resp_detail r
  | None => None
  end.

(** [error.code === c] *)
Definition code_is (error : JsError) (c : string) : bool :=
  match err_code error with
  | code_str s => (s =? c)%string
  | _ => false
  end.

(** The [catch] block of [/api/make-call]: [(errorMessage, statusCode)]. *)
Definition make_call_error (error : JsError) : string * Z :=
  let errorMessage := "Failed to make call" in
  let statusCode := 500 in
  if response_status_is error 401 then
    ("API Key Error: Check your ELEVENLABS_API_KEY in .env file", 401)
  else if response_status_is error 400 then
    ("Phone Number Error: Make sure your number is in E.164 format", 400)
  else if response_status_is error 429 then
    ("Rate limit exceeded. Please try again later.", 429)
  else if code_is error "ECONNABORTED" then
    ("Request timeout. Please try again.", 408)
  else
    match nonempty (response_detail error) with
    | Some detail => (detail, statusCode)
    | None =>
        if negb (err_message error =? "")%string
        then (err_message error, statusCode)
        else (errorMessage, statusCode)
    end.

(** [POST /api/make-call] *)
Definition make_call (phoneNumber : option string) : M Response :=
  try_catch
    (match nonempty phoneNumber with
     | None =>
         ret (res_status_json 400 (Failure "Phone number is required"))
     | Some phoneNumber =>
         key <- process_env_ELEVENLABS_API_KEY ;;
         if negb (truthy key) then
           ret (res_status_json 500
                  (Failure "ElevenLabs API key not configured. Please add ELEVENLABS_API_KEY to your .env file"))
         else
           let callData := CallData AGENT_ID PHONE_NUMBER_ID phoneNumber in
           response <- axios_post
             "https://api.elevenlabs.io/v1/convai/twilio/outbound-call"
             callData key (Some 30000) ;;
           callSession <- new_CallSession (conversation_id response)
             phoneNumber initiated
             [(speaker_system, "Call initiated successfully")] ;;
           _ <- CallSession_save true callSession ;;
           ret (res_json (CallOk "Call initiated successfully"
                                 (conversation_id response)
                                 (_id callSession)))
     end)
    (fun error =>
       let '(errorMessage, statusCode) := make_call_error error in
       ret (res_status_json statusCode (Failure errorMessage))).

(** [GET /api/call-status/:callId] *)
Definition call_status (callId : string) : M Response :=
  try_catch
    (callSession <- CallSession_findOne callId ;;
     match callSession with
     | None =>
         ret (res_status_json 404 (Failure "Call session not found"))
     | Some callSession =>
         ret (res_json (StatusOk (status callSession)
                                 (duration callSession)
                                 (startTime callSession)
                                 (endTime callSession)))
     end)
    (fun error =>
       ret (res_status_json 500 (Failure "Failed to get call status"))).

(** The update of [/api/end-call]: [status], [endTime] and [duration] are
    assigned in this order, [duration] from the [endTime] just stored;
    [Math.floor] of the quotient is [Z]'s division. *)
Definition end_session (callSession : CallSession) (date : Z) : CallSession :=
  {| _id := _id callSession;
     callId := callId callSession;
     phoneNumber := phoneNumber callSession;
     status := completed;
     startTime := startTime callSession;
     endTime := Some date;
     duration := Some ((date - startTime callSession) / 1000);
     conversationLog := conversationLog callSession;
     createdAt := createdAt callSession |}.

(** [POST /api/end-call/:callId] *)
Definition end_call (callId : string) : M Response :=
  try_catch
    (key <- process_env_ELEVENLABS_API_KEY ;;
     response <- axios_post
       ("https://api.elevenlabs.io/v1/convai/twilio/call/" ++ callId ++ "/end")
       EmptyBody key None ;;
     callSession <- CallSession_findOne callId ;;
     _ <- match callSession with
          | Some callSession =>
              date <- Date_now ;;
              CallSession_save false (end_session callSession date)
          | None => ret tt
          end ;;
     ret (res_json (EndOk "Call ended successfully")))
    (fun error => ret (res_status_json 500 (Failure "Failed to end call"))).

(** [GET /api/health]; the ISO text of the timestamp is kept as the
    instant it denotes. *)
Definition health : M Response :=
  key <- process_env_ELEVENLABS_API_KEY ;;
  date <- Date_now ;;
  ret (res_json (Health "FINAL Grammar Guru Call App is running"
                        date (truthy key))).

(** ** The server as a transition system *)

Inductive Request :=
| POST_register (username mobile password : option string)
| POST_login (username password : option string)
| POST_make_call (phoneNumber : option string)
| GET_call_status (callId : string)
| POST_end_call (callId : string)
| GET_health.

Definition handle (rq : Request) : M Response :=
  match rq with
  | POST_register u m p => register u m p
  | POST_login u p => login u p
  | POST_make_call n => make_call n
  | GET_call_status c => call_status c
  | POST_end_call c => end_call c
  | GET_health => health
  end.

(** The world after serving [rq] under [env]. *)
Definition step (env : Env) (rq : Request) (w : World) : World :=
  snd (handle rq env w).

(** The response to [rq], when the handler does not let an error escape. *)
Definition respond (env : Env) (rq : Request) (w : World) : option Response :=
  match fst (handle rq env w) with
  | Returned r => Some r
  | Thrown _ => None
  end.

Fixpoint run (script : list (Env * Request)) (w : World) : World :=
  match script with
  | [] => w
  | (env, rq) :: rest => run rest (step env rq w)
  end.

Inductive reachable : World -> Prop :=
| reachable_init : reachable init
| reachable_step env rq w : reachable w -> reachable (step env rq w).

(** The requests the two call handlers send to the provider. *)
Definition start_call_request (env : Env) (phone : string) : OutboundRequest :=
  {| url := "https://api.elevenlabs.io/v1/convai/twilio/outbound-call";
     data := CallData AGENT_ID PHONE_NUMBER_ID phone;
     xi_api_key := ELEVENLABS_API_KEY env;
     timeout := Some 30000 |}.

Definition end_call_request (env : Env) (cid : string) : OutboundRequest :=
  {| url := "https://api.elevenlabs.io/v1/convai/twilio/call/" ++ cid ++ "/end";
     data := EmptyBody;
     xi_api_key := ELEVENLABS_API_KEY env;
     timeout := None |}.

(** A script that never ends a call. *)
Definition is_end_call (rq : Request) : bool :=
  match rq with
  | POST_end_call _ => true
  | _ => false
  end.

Definition no_end_call (script : list (Env * Request)) : bool :=
  forallb (fun er => negb (is_end_call (snd er))) script.

(** The world after a request was sent out, and after an [_id] was drawn. *)
Definition sent (rq : OutboundRequest) (w : World) : World :=
  {| users := users w; sessions := sessions w;
     next_id := next_id w; outbound := outbound w ++ [rq] |}.

Definition allocated (w : World) : World :=
  {| users := users w; sessions := sessions w;
     next_id := S (next_id w); outbound := outbound w |}.

(** The session that [/api/make-call] stores for provider id [c]. *)
Definition initiated_session (env : Env) (w : World) (c phone : string)
  : CallSession :=
  {| _id := next_id w;
     callId := c;
     phoneNumber := phone;
     status := initiated;
     startTime := now env;
     endTime := None;
     duration := None;
     conversationLog :=
       [{| timestamp := now env; speaker := speaker_system;
           message := "Call initiated successfully" |}];
     createdAt := now env |}.

(** Without an end-call request, every stored session is as it was
    created: [initiated], with no [endTime] and no [duration]. *)
Definition untouched (s : CallSession) : Prop :=
  status s = initiated /\ endTime s = None /\ duration s = None.

(** ** Sample inputs *)

Definition sample_phone : string := "+15551234567".

Definition provider_answers (c : string)
  : OutboundRequest -> Outcome ProviderData :=
  fun _ => Returned {| conversation_id := Some c; payload := "{}" |}.

Definition provider_fails (e : JsError)
  : OutboundRequest -> Outcome ProviderData :=
  fun _ => Thrown e.

(** A configured server whose provider answers every request with
    conversation id [abc123], at clock reading [t]. *)
Definition env_at (t : Z) : Env :=
  {| ELEVENLABS_API_KEY := Some "sk_test";
     provider := provider_answers "abc123";
     now := t |}.

Definition rate_limited : JsError :=
  {| err_response := Some {| resp_status := 429; resp_detail := None |};
     err_code := code_str "ERR_BAD_REQUEST";
     err_message := "Request failed with status code 429" |}.

Definition env_rate_limited : Env :=
  {| ELEVENLABS_API_KEY := Some "sk_test";
     provider := provider_fails rate_limited;
     now := 1500 |}.

Definition env_unconfigured : Env :=
  {| ELEVENLABS_API_KEY := None;
     provider := provider_answers "abc123";
     now := 1500 |}.

Definition alice : User :=
  {| username := "alice"; mobile := "+15550001111"; password := "s3cret" |}.

Definition register_alice : Request :=
  POST_register (Some "alice") (Some "+15550001111") (Some "s3cret").

Definition call_sample : Request := POST_make_call (Some sample_phone).

(** The world after one successful call to [sample_phone] at time 1500. *)
Definition one_call : World := step (env_at 1500) call_sample init.

(** ** The status checker *)

(** [axios.get(url, {headers})].  A GET carries no body; in this program
    the URL tells it apart from the two POST requests. *)
Definition axios_get (u : string) (key : option string) : M ProviderData :=
  fun env w =>
    let rq := {| url := u; data := EmptyBody; xi_api_key := key;
                 timeout := None |} in
    (provider env rq, sent rq w).

(** [checkCallStatus(conversationId)]: the provider's [response.data], or
    [undefined] when the request fails (the error is only logged). *)
Definition checkCallStatus (conversationId : string)
  : M (option ProviderData) :=
  try_catch
    (key <- process_env_ELEVENLABS_API_KEY ;;
     response <- axios_get
       ("https://api.elevenlabs.io/v1/convai/conversations/"
          ++ conversationId) key ;;
     ret (Some response))
    (fun error => ret None).

Definition check_status_request (env : Env) (cid : string) : OutboundRequest :=
  {| url := "https://api.elevenlabs.io/v1/convai/conversations/" ++ cid;
     data := EmptyBody;
     xi_api_key := ELEVENLABS_API_KEY env;
     timeout := None |}.

(** ** Consistency of the two collections *)

Definition user_ok (u : User) : Prop :=
  username u <> "" /\ mobile u <> "" /\ password u <> "".

(** A stored session is keyed, and is either as created or as ended. *)
Definition session_ok (s : CallSession) : Prop :=
  callId s <> "" /\ phoneNumber s <> ""
  /\ ((status s = initiated /\ endTime s = None /\ duration s = None)
      \/ (exists e, status s = completed /\ endTime s = Some e
                    /\ duration s = Some ((e - startTime s) / 1000))).

Record consistent (w : World) : Prop := {
  users_ok : Forall user_ok (users w);
  usernames_unique : NoDup (map username (users w));
  sessions_ok : Forall session_ok (sessions w);
  callIds_unique : NoDup (map callId (sessions w));
  ids_unique : NoDup (map _id (sessions w));
  ids_below : Forall (fun s => (_id s < next_id w)%nat) (sessions w)
}.

(** The provider requests one served request gives rise to, read off the
    request and the configured key alone. *)
Definition provider_requests (env : Env) (rq : Request)
  : list OutboundRequest :=
  match rq with
  | POST_make_call v =>
      match nonempty v with
      | Some phone =>
          if truthy (ELEVENLABS_API_KEY env)
          then [start_call_request env phone] else []
      | None => []
      end
  | POST_end_call c => [end_call_request env c]
  | _ => []
  end.

(** The clock readings of a script never go below [t] nor backwards. *)
Fixpoint clock_from (t : Z) (script : list (Env * Request)) : bool :=
  match script with
  | [] => true
  | (env, _) :: rest => (t <=? now env) && clock_from (now env) rest
  end.

Definition is_health (rq : Request) : bool :=
  match rq with
  | GET_health => true
  | _ => false
  end.

Definition is_register (rq : Request) : bool :=
  match rq with
  | POST_register _ _ _ => true
  | _ => false
  end.

(** The status codes the handlers use. *)
Definition known_status (code : Z) : bool :=
  existsb (Z.eqb code) [200; 400; 401; 404; 408; 409; 429; 500].

(** A timeout that also carries an upstream 429. *)
Definition timeout_with_429 : JsError :=
  {| err_response := Some {| resp_status := 429; resp_detail := Some "busy" |};
     err_code := code_str "ECONNABORTED";
     err_message := "timeout of 30000ms exceeded" |}.

(** [s'] is the session [s] at a later time: what end-call does not
    assign is kept, and a completed session stays completed. *)
Definition same_call (s s' : CallSession) : Prop :=
  _id s' = _id s /\ callId s' = callId s
  /\ phoneNumber s' = phoneNumber s /\ startTime s' = startTime s
  /\ conversationLog s' = conversationLog s /\ createdAt s' = createdAt s
  /\ (status s = completed -> status s' = completed).

(** A session started no later than [t] whose stored times are in order. *)
Definition started_by (t : Z) (s : CallSession) : Prop :=
  startTime s <= t
  /\ (forall d, duration s = Some d -> 0 <= d)
  /\ (forall e, endTime s = Some e -> startTime s <= e).

(** The status of an answered request. *)
Definition statusCode_of (r : option Response) : option Z :=
  option_map statusCode r.

(** An upstream rejection that carries a [detail], and a network failure
    that has only its own message. *)
Definition upstream_rejected : JsError :=
  {| err_response :=
       Some {| resp_status := 422;
               resp_detail := Some "Agent is not available" |};
     err_code := code_str "ERR_BAD_REQUEST";
     err_message := "Request failed with status code 422" |}.

Definition network_down : JsError :=
  {| err_response := None;
     err_code := code_str "ENOTFOUND";
     err_message := "getaddrinfo ENOTFOUND api.elevenlabs.io" |}.

Definition env_failing (e : JsError) : Env :=
  {| ELEVENLABS_API_KEY := Some "sk_test";
     provider := provider_fails e;
     now := 1500 |}.

Ltac unfold_M :=
  unfold try_catch, bind, ret, throw, User_findOne, User_save,
    CallSession_findOne, CallSession_save, new_CallSession, axios_post,
    process_env_ELEVENLABS_API_KEY, Date_now in *.

(** ** Facts about the store *)

Lemma nonempty_Some v s : nonempty v = Some s -> v = Some s /\ s <> "".
Proof.
  destruct v as [t|]; simpl; [|discriminate].
  destruct (String.eqb_spec t ""); [discriminate|].
  intros [= ->]. auto.
Qed.

Lemma nonempty_truthy v : truthy v = true <-> exists s, nonempty v = Some s.
Proof.
  destruct v as [t|]; simpl.
  - destruct (t =? "")%string; simpl; split; eauto; try discriminate.
    intros [s Hs]. discriminate.
  - split; [discriminate | intros [s Hs]; discriminate].
Qed.

Lemma nonempty_falsy v : truthy v = false <-> nonempty v = None.
Proof.
  destruct v as [t|]; simpl; [|tauto].
  destruct (t =? "")%string; simpl; split; auto; discriminate.
Qed.

Lemma nonempty_intro s : s <> "" -> nonempty (Some s) = Some s.
Proof.
  intros H. simpl. destruct (String.eqb_spec s ""); congruence.
Qed.

Lemma find_session_callId c ss s :
  find_session c ss = Some s -> In s ss /\ callId s = c.
Proof.
  unfold find_session. intros H. apply find_some in H as [Hin Heq].
  apply String.eqb_eq in Heq. auto.
Qed.

Lemma find_session_app c ss t :
  find_session c (ss ++ [t]) =
  match find_session c ss with
  | Some s => Some s
  | None => if (callId t =? c)%string then Some t else None
  end.
Proof.
  unfold find_session. induction ss as [|x ss IH]; simpl.
  - reflexivity.
  - destruct (callId x =? c)%string; auto.
Qed.

Lemma find_session_existsb c ss :
  existsb (fun s => (callId s =? c)%string) ss =
  match find_session c ss with Some _ => true | None => false end.
Proof.
  unfold find_session. induction ss as [|x ss IH]; simpl; auto.
  destruct (callId x =? c)%string; auto.
Qed.

Lemma find_user_existsb n us :
  existsb (fun u => (username u =? n)%string) us =
  match find_user n us with Some _ => true | None => false end.
Proof.
  unfold find_user. induction us as [|x us IH]; simpl; auto.
  destruct (username x =? n)%string; auto.
Qed.

Lemma find_user_app n us t :
  find_user n (us ++ [t]) =
  match find_user n us with
  | Some u => Some u
  | None => if (username t =? n)%string then Some t else None
  end.
Proof.
  unfold find_user. induction us as [|x us IH]; simpl.
  - reflexivity.
  - destruct (username x =? n)%string; auto.
Qed.

(** Saving the document that [findOne] returned, modified but with its
    [callId] kept, makes [findOne] return the modified document. *)
Lemma find_session_update c ss s s' :
  find_session c ss = Some s ->
  callId s' = c ->
  find_session c
    (map (fun x => if (_id x =? _id s)%nat then s' else x) ss) = Some s'.
Proof.
  unfold find_session. intros Hf Hc.
  induction ss as [|x ss IH]; simpl in *; [discriminate|].
  destruct (callId x =? c)%string eqn:Hx.
  - injection Hf as ->. rewrite Nat.eqb_refl. simpl.
    rewrite Hc, String.eqb_refl. reflexivity.
  - destruct (_id x =? _id s)%nat; simpl.
    + rewrite Hc, String.eqb_refl. reflexivity.
    + rewrite Hx. auto.
Qed.

(** ** What each handler computes *)

Lemma end_call_eq env w c :
  handle (POST_end_call c) env w =
  let w1 := sent (end_call_request env c) w in
  match provider env (end_call_request env c) with
  | Thrown _ =>
      (Returned (res_status_json 500 (Failure "Failed to end call")), w1)
  | Returned _ =>
      (Returned (res_json (EndOk "Call ended successfully")),
       match find_session c (sessions w) with
       | Some s =>
           set_sessions
             (map (fun x => if (_id x =? _id s)%nat
                            then end_session s (now env) else x)
                  (sessions w)) w1
       | None => w1
       end)
  end.
Proof.
  unfold handle, end_call, end_call_request, sent. unfold_M. simpl.
  destruct (provider env _) as [ack|e]; [|reflexivity].
  destruct (find_session c (sessions w)) as [s|]; reflexivity.
Qed.

Lemma call_status_eq env w c :
  handle (GET_call_status c) env w =
  (Returned
     match find_session c (sessions w) with
     | Some s =>
         res_json (StatusOk (status s) (duration s) (startTime s) (endTime s))
     | None => res_status_json 404 (Failure "Call session not found")
     end, w).
Proof.
  unfold handle, call_status. unfold_M. simpl.
  destruct (find_session c (sessions w)); reflexivity.
Qed.

Lemma make_call_eq env w v :
  handle (POST_make_call v) env w =
  match nonempty v with
  | None => (Returned (res_status_json 400 (Failure "Phone number is required")), w)
  | Some phone =>
      if negb (truthy (ELEVENLABS_API_KEY env)) then
        (Returned (res_status_json 500
           (Failure "ElevenLabs API key not configured. Please add ELEVENLABS_API_KEY to your .env file")), w)
      else
        let w1 := sent (start_call_request env phone) w in
        match provider env (start_call_request env phone) with
        | Thrown e =>
            (Returned (res_status_json (snd (make_call_error e))
                         (Failure (fst (make_call_error e)))), w1)
        | Returned d =>
            match nonempty (conversation_id d) with
            | None =>
                (Returned (res_status_json 500
                             (Failure "CallSession validation failed")),
                 allocated w1)
            | Some c =>
                match find_session c (sessions w) with
                | Some _ =>
                    (Returned (res_status_json 500
                       (Failure "E11000 duplicate key error index: callId_1")),
                     allocated w1)
                | None =>
                    (Returned (res_json (CallOk "Call initiated successfully"
                                           (Some c) (next_id w))),
                     set_sessions
                       (sessions w ++ [initiated_session env w c phone])
                       (allocated w1))
                end
            end
        end
  end.
Proof.
  unfold handle, make_call, start_call_request, sent, allocated. unfold_M.
  destruct (nonempty v) as [phone|] eqn:Hv; [|reflexivity].
  apply nonempty_Some in Hv as [_ Hp].
  simpl. destruct (truthy (ELEVENLABS_API_KEY env)); simpl; [|reflexivity].
  destruct (provider env _) as [d|e]; simpl.
  - destruct (conversation_id d) as [c|]; simpl.
    + destruct (String.eqb_spec c ""); simpl; [reflexivity|].
      destruct (String.eqb_spec phone ""); [contradiction|]. simpl.
      rewrite find_session_existsb.
      destruct (find_session c (sessions w)); reflexivity.
    + reflexivity.
  - destruct (make_call_error e). reflexivity.
Qed.

Lemma register_eq env w u m p :
  handle (POST_register u m p) env w =
  match nonempty u, nonempty m, nonempty p with
  | Some name, Some mob, Some pw =>
      match find_user name (users w) with
      | Some _ =>
          (Returned (res_status_json 409 (Failure "Username already exists.")),
           w)
      | None =>
          (Returned (res_json (UserOk name mob)),
           set_users
             (users w ++ [{| username := name; mobile := mob;
                             password := pw |}]) w)
      end
  | _, _, _ =>
      (Returned (res_status_json 400 (Failure "All fields are required.")), w)
  end.
Proof.
  unfold handle, register. unfold_M.
  destruct (nonempty u) as [name|] eqn:Hu; [|reflexivity].
  destruct (nonempty m) as [mob|] eqn:Hm; [|reflexivity].
  destruct (nonempty p) as [pw|] eqn:Hp; [|reflexivity].
  apply nonempty_Some in Hu as [_ Hu], Hm as [_ Hm], Hp as [_ Hp].
  destruct (find_user name (users w)) as [x|] eqn:Hf; [reflexivity|].
  simpl.
  destruct (String.eqb_spec name ""); [contradiction|].
  destruct (String.eqb_spec mob ""); [contradiction|].
  destruct (String.eqb_spec pw ""); [contradiction|].
  simpl. rewrite find_user_existsb, Hf. reflexivity.
Qed.

Lemma login_eq env w u p :
  handle (POST_login u p) env w =
  (Returned
     match nonempty u, nonempty p with
     | Some name, Some pw =>
         match find_user name (users w) with
         | Some usr =>
             if (password usr =? pw)%string
             then res_json (UserOk (username usr) (mobile usr))
             else res_status_json 401 (Failure "Invalid username or password.")
         | None =>
             res_status_json 401 (Failure "Invalid username or password.")
         end
     | _, _ => res_status_json 400 (Failure "All fields are required.")
     end, w).
Proof.
  unfold handle, login. unfold_M.
  destruct (nonempty u) as [name|]; [|reflexivity].
  destruct (nonempty p) as [pw|]; [|reflexivity].
  destruct (find_user name (users w)) as [[un mo pa]|]; [|reflexivity].
  simpl. destruct (pa =? pw)%string; reflexivity.
Qed.

Lemma health_eq env w :
  handle GET_health env w =
  (Returned (res_json (Health "FINAL Grammar Guru Call App is running"
                              (now env) (truthy (ELEVENLABS_API_KEY env)))),
   w).
Proof. reflexivity. Qed.

(** No handler lets an error escape: every request is answered. *)
Lemma handle_returns rq env w : exists r, fst (handle rq env w) = Returned r.
Proof.
  destruct rq as [u m p|u p|v|c|c|].
  - rewrite register_eq.
    destruct (nonempty u), (nonempty m), (nonempty p); simpl; eauto.
    destruct (find_user _ _); simpl; eauto.
  - rewrite login_eq. simpl. eauto.
  - rewrite make_call_eq.
    destruct (nonempty v); simpl; eauto.
    destruct (negb _); simpl; eauto.
    destruct (provider _ _); simpl; eauto.
    destruct (nonempty _); simpl; eauto.
    destruct (find_session _ _); simpl; eauto.
  - rewrite call_status_eq. simpl. eauto.
  - rewrite end_call_eq. simpl.
    destruct (provider _ _); simpl; eauto.
  - rewrite health_eq. simpl. eauto.
Qed.

(** How one request changes the session collection: not at all, by one
    appended [initiated] session, or by ending the session it names. *)
Lemma step_sessions env rq w :
  sessions (step env rq w) = sessions w
  \/ (exists c phone,
        is_end_call rq = false /\
        find_session c (sessions w) = None /\
        sessions (step env rq w) =
        (sessions w ++ [initiated_session env w c phone])%list)
  \/ (exists c s,
        rq = POST_end_call c /\
        find_session c (sessions w) = Some s /\
        sessions (step env rq w) =
        map (fun x => if (_id x =? _id s)%nat
                      then end_session s (now env) else x) (sessions w)).
Proof.
  unfold step. destruct rq as [u m p|u p|v|c|c|].
  - left. rewrite register_eq.
    destruct (nonempty u), (nonempty m), (nonempty p); try reflexivity.
    destruct (find_user _ _); reflexivity.
  - left. rewrite login_eq. reflexivity.
  - rewrite make_call_eq.
    destruct (nonempty v) as [phone|]; [|left; reflexivity].
    destruct (negb _); [left; reflexivity|].
    cbv zeta. destruct (provider _ _) as [d|e]; [|left; reflexivity].
    destruct (nonempty _) as [c|]; [|left; reflexivity].
    destruct (find_session c (sessions w)) eqn:Hf; [left; reflexivity|].
    right; left. exists c, phone. auto.
  - left. rewrite call_status_eq. reflexivity.
  - rewrite end_call_eq. cbv zeta.
    destruct (provider _ _) as [d|e]; [|left; reflexivity].
    destruct (find_session c (sessions w)) as [s|] eqn:Hf; [|left; reflexivity].
    right; right. exists c, s. auto.
  - left. reflexivity.
Qed.

(** ** The call-session lifecycle *)

(** The stored session after a successful end-call. *)
Lemma end_call_stores_end_session env w c s ack :
  find_session c (sessions w) = Some s ->
  provider env (end_call_request env c) = Returned ack ->
  find_session c (sessions (step env (POST_end_call c) w))
  = Some (end_session s (now env)).
Proof.
  intros Hf Hp. unfold step. rewrite end_call_eq. cbv zeta.
  rewrite Hp, Hf. simpl.
  apply find_session_update; [assumption|].
  simpl. apply (find_session_callId _ _ _ Hf).
Qed.

(** C1: in every world reachable from the empty store by any sequence of
    requests, each stored session has status [initiated] or [completed];
    [active] and [failed] are never written.  A status lookup leaves the
    world as it was. *)
Theorem reachable_status_initiated_or_completed w :
  reachable w ->
  (forall s, In s (sessions w) ->
     (status s = initiated \/ status s = completed)
     /\ status s <> active /\ status s <> failed)
  /\ (forall env c, step env (GET_call_status c) w = w).
Proof.
  intros Hr. split.
  - induction Hr as [|env rq w Hr IH]; intros s Hin.
    + destruct Hin.
    + destruct (step_sessions env rq w)
        as [Heq | [(c & phone & _ & _ & Heq) | (c & s0 & _ & _ & Heq)]];
        rewrite Heq in Hin.
      * auto.
      * apply in_app_or in Hin as [Hin | [<- | []]]; [auto|].
        simpl. repeat split; auto; discriminate.
      * apply in_map_iff in Hin as (x & Hx & Hin).
        destruct (_id x =? _id s0)%nat.
        -- subst s. simpl. repeat split; auto; discriminate.
        -- subst x. auto.
  - intros env c. unfold step. rewrite call_status_eq. reflexivity.
Qed.

(** Reachable worlds are the worlds some script leads to. *)
Lemma run_reachable script w : reachable w -> reachable (run script w).
Proof.
  revert w. induction script as [|[env rq] rest IH]; simpl; intros w Hw.
  - exact Hw.
  - apply IH, reachable_step, Hw.
Qed.

Lemma run_snoc script env rq w :
  run (script ++ [(env, rq)]) w = step env rq (run script w).
Proof.
  revert w. induction script as [|[e r] rest IH]; simpl; intros w.
  - reflexivity.
  - apply IH.
Qed.

Lemma reachable_run w : reachable w -> exists script, w = run script init.
Proof.
  induction 1 as [|env rq w Hw [script ->]].
  - exists []. reflexivity.
  - exists (script ++ [(env, rq)])%list. symmetry. apply run_snoc.
Qed.

Lemma one_call_reachable : reachable one_call.
Proof. apply reachable_step, reachable_init. Qed.

Lemma reachable_status_witness :
  status (initiated_session (env_at 1500) init "abc123" sample_phone)
    = initiated
  \/ status (initiated_session (env_at 1500) init "abc123" sample_phone)
    = completed.
Proof.
  apply (proj1 (reachable_status_initiated_or_completed
                  one_call one_call_reachable)).
  vm_compute. left. reflexivity.
Defined.

(** C2: when a session with the given [callId] exists and the provider
    acknowledges the end-call request, whatever the acknowledgment holds,
    the request is answered with success, the session becomes [completed]
    with [endTime] the current time and [duration] the floor of
    (endTime - startTime) / 1000, its other fields are kept, and a status
    lookup afterwards returns these values. *)
Theorem end_call_completes_session env w c s ack :
  find_session c (sessions w) = Some s ->
  provider env (end_call_request env c) = Returned ack ->
  let w' := step env (POST_end_call c) w in
  let d := (now env - startTime s) / 1000 in
  respond env (POST_end_call c) w
    = Some (res_json (EndOk "Call ended successfully"))
  /\ (exists s',
        find_session c (sessions w') = Some s'
        /\ status s' = completed
        /\ endTime s' = Some (now env)
        /\ duration s' = Some d
        /\ startTime s' = startTime s
        /\ callId s' = c
        /\ phoneNumber s' = phoneNumber s
        /\ conversationLog s' = conversationLog s)
  /\ 1000 * d <= now env - startTime s < 1000 * d + 1000
  /\ (forall env',
        respond env' (GET_call_status c) w'
        = Some (res_json (StatusOk completed (Some d) (startTime s)
                                   (Some (now env))))).
Proof.
  intros Hf Hp w' d.
  pose proof (end_call_stores_end_session env w c s ack Hf Hp) as Hw'.
  fold w' in Hw'.
  split; [|split; [|split]].
  - unfold respond. rewrite end_call_eq. cbv zeta. rewrite Hp. reflexivity.
  - exists (end_session s (now env)). simpl. repeat split; auto.
    apply (find_session_callId _ _ _ Hf).
  - unfold d.
    pose proof (Z.div_mod (now env - startTime s) 1000 ltac:(lia)).
    pose proof (Z.mod_pos_bound (now env - startTime s) 1000 ltac:(lia)).
    lia.
  - intros env'. unfold respond. rewrite call_status_eq. simpl.
    rewrite Hw'. reflexivity.
Qed.

Lemma end_call_completes_session_witness :
  respond (env_at 9999) (GET_call_status "abc123")
    (step (env_at 4999) (POST_end_call "abc123") one_call)
  = Some (res_json (StatusOk completed (Some 3) 1500 (Some 4999))).
Proof.
  apply (end_call_completes_session (env_at 4999) one_call "abc123"
           (initiated_session (env_at 1500) init "abc123" sample_phone)
           {| conversation_id := Some "abc123"; payload := "{}" |});
    reflexivity.
Defined.

(** C3: when no session has the given [callId], ending the call is never
    answered with 404: the response is the one the same request gets in
    any other world, the session collection is left as it was, and once
    the provider has acknowledged the request the response reports
    success; a status lookup for the same [callId] is answered with 404. *)
Theorem end_call_tolerates_missing_session env w c :
  find_session c (sessions w) = None ->
  (exists r,
     respond env (POST_end_call c) w = Some r
     /\ statusCode r <> 404
     /\ forall w2, respond env (POST_end_call c) w2 = Some r)
  /\ sessions (step env (POST_end_call c) w) = sessions w
  /\ (forall ack,
        provider env (end_call_request env c) = Returned ack ->
        respond env (POST_end_call c) w
          = Some (res_json (EndOk "Call ended successfully"))
        /\ success (res_json (EndOk "Call ended successfully")) = true)
  /\ respond env (GET_call_status c) w
     = Some (res_status_json 404 (Failure "Call session not found")).
Proof.
  intros Hf. unfold respond, step.
  rewrite call_status_eq, Hf. rewrite end_call_eq. cbv zeta.
  split; [|split; [|split]].
  - destruct (provider env (end_call_request env c)) as [ack|e] eqn:Hp.
    + exists (res_json (EndOk "Call ended successfully")).
      repeat split; [discriminate|].
      intros w2. rewrite end_call_eq. cbv zeta. rewrite Hp. reflexivity.
    + exists (res_status_json 500 (Failure "Failed to end call")).
      repeat split; [discriminate|].
      intros w2. rewrite end_call_eq. cbv zeta. rewrite Hp. reflexivity.
  - destruct (provider env _); [rewrite Hf|]; reflexivity.
  - intros ack ->. split; reflexivity.
  - reflexivity.
Qed.

Lemma end_call_tolerates_missing_session_witness :
  respond (env_at 4999) (POST_end_call "nonexistent") one_call
    = Some (res_json (EndOk "Call ended successfully"))
  /\ respond (env_at 4999) (GET_call_status "nonexistent") one_call
     = Some (res_status_json 404 (Failure "Call session not found")).
Proof.
  destruct (end_call_tolerates_missing_session
              (env_at 4999) one_call "nonexistent" eq_refl)
    as (_ & _ & Hok & H404).
  split; [|exact H404].
  exact (proj1 (Hok {| conversation_id := Some "abc123"; payload := "{}" |}
                    eq_refl)).
Defined.

(** C10: ending a call twice is not idempotent.  After a first successful
    end-call the session is [completed]; a second successful end-call
    keeps it [completed], overwrites [endTime] with the new current time
    and recomputes [duration] from it, so with a clock that does not run
    backwards the recorded duration does not decrease, and it grows by
    the whole seconds that passed; a different clock reading gives a
    different stored session. *)
Theorem end_call_twice_overwrites env1 env2 w c s ack1 ack2 :
  find_session c (sessions w) = Some s ->
  provider env1 (end_call_request env1 c) = Returned ack1 ->
  provider env2 (end_call_request env2 c) = Returned ack2 ->
  let w1 := step env1 (POST_end_call c) w in
  let w2 := step env2 (POST_end_call c) w1 in
  exists s1 s2 d1 d2,
    find_session c (sessions w1) = Some s1
    /\ find_session c (sessions w2) = Some s2
    /\ status s1 = completed /\ status s2 = completed
    /\ endTime s1 = Some (now env1) /\ endTime s2 = Some (now env2)
    /\ duration s1 = Some d1 /\ duration s2 = Some d2
    /\ d2 = (now env2 - startTime s) / 1000
    /\ (now env1 <= now env2 -> d1 <= d2)
    /\ (now env1 + 1000 <= now env2 -> d1 < d2)
    /\ (now env1 <> now env2 -> s1 <> s2).
Proof.
  intros Hf Hp1 Hp2 w1 w2.
  pose proof (end_call_stores_end_session env1 w c s ack1 Hf Hp1) as Hw1.
  fold w1 in Hw1.
  pose proof (end_call_stores_end_session env2 w1 c _ ack2 Hw1 Hp2) as Hw2.
  fold w2 in Hw2.
  exists (end_session s (now env1)),
         (end_session (end_session s (now env1)) (now env2)),
         ((now env1 - startTime s) / 1000),
         ((now env2 - startTime s) / 1000).
  simpl. repeat split; auto.
  - intros Hle. apply Z.div_le_mono; lia.
  - intros Hle.
    replace (now env2 - startTime s)
      with ((now env2 - 1000 - startTime s) + 1 * 1000) by lia.
    rewrite Z.div_add by lia.
    assert ((now env1 - startTime s) / 1000
            <= (now env2 - 1000 - startTime s) / 1000)
      by (apply Z.div_le_mono; lia).
    lia.
  - intros Hne Heq. apply (f_equal endTime) in Heq. simpl in Heq.
    congruence.
Qed.

Lemma end_call_twice_overwrites_witness :
  exists s1 s2,
    find_session "abc123"
      (sessions (step (env_at 4999) (POST_end_call "abc123") one_call))
      = Some s1
    /\ find_session "abc123"
         (sessions (step (env_at 7000) (POST_end_call "abc123")
                      (step (env_at 4999) (POST_end_call "abc123") one_call)))
       = Some s2
    /\ duration s1 = Some 3 /\ duration s2 = Some 5 /\ s1 <> s2.
Proof.
  destruct (end_call_twice_overwrites (env_at 4999) (env_at 7000) one_call
              "abc123"
              (initiated_session (env_at 1500) init "abc123" sample_phone)
              {| conversation_id := Some "abc123"; payload := "{}" |}
              {| conversation_id := Some "abc123"; payload := "{}" |}
              eq_refl eq_refl eq_refl)
    as (s1 & s2 & d1 & d2 & H1 & H2 & _ & _ & _ & _ & Hd1 & Hd2 & _ & _ & _ & Hne).
  exists s1, s2. split; [exact H1|]. split; [exact H2|].
  vm_compute in H1, H2.
  injection H1 as <-. injection H2 as <-.
  repeat split; try reflexivity.
  apply Hne. vm_compute. discriminate.
Defined.

Lemma step_untouched env rq w :
  is_end_call rq = false ->
  (forall s, In s (sessions w) -> untouched s) ->
  forall s, In s (sessions (step env rq w)) -> untouched s.
Proof.
  intros Hrq IH s Hin.
  destruct (step_sessions env rq w)
    as [Heq | [(c & phone & _ & _ & Heq) | (c & s0 & -> & _)]];
    [rewrite Heq in Hin; auto | rewrite Heq in Hin | discriminate].
  apply in_app_or in Hin as [Hin | [<- | []]]; [auto|].
  repeat split.
Qed.

Lemma run_untouched script :
  no_end_call script = true ->
  forall w,
    (forall s, In s (sessions w) -> untouched s) ->
    forall s, In s (sessions (run script w)) -> untouched s.
Proof.
  induction script as [|[env rq] rest IH]; simpl; intros Hs w Hw; [exact Hw|].
  apply andb_true_iff in Hs as [Hrq Hrest].
  apply IH; [assumption|].
  apply step_untouched; [|assumption].
  now apply negb_true_iff in Hrq.
Qed.

(** C7: a status lookup is answered with 404 "Call session not found" when
    no session has the [callId]; otherwise with the stored status,
    duration, startTime and endTime of the first matching session.  It
    changes nothing in the world, so no request goes to the provider, and
    its answer does not depend on the provider, the key or the clock.
    After any sequence of requests without an end-call, the status
    returned is [initiated] and [endTime] (and [duration]) are unset. *)
Theorem call_status_returns_stored env w c :
  (find_session c (sessions w) = None ->
     respond env (GET_call_status c) w
     = Some (res_status_json 404 (Failure "Call session not found")))
  /\ (forall s,
        find_session c (sessions w) = Some s ->
        respond env (GET_call_status c) w
        = Some (res_json (StatusOk (status s) (duration s)
                                   (startTime s) (endTime s))))
  /\ step env (GET_call_status c) w = w
  /\ outbound (step env (GET_call_status c) w) = outbound w
  /\ (forall env',
        respond env' (GET_call_status c) w = respond env (GET_call_status c) w)
  /\ (forall script s,
        no_end_call script = true ->
        w = run script init ->
        find_session c (sessions w) = Some s ->
        respond env (GET_call_status c) w
        = Some (res_json (StatusOk initiated None (startTime s) None))).
Proof.
  unfold respond, step. rewrite call_status_eq. cbn [fst snd].
  repeat split.
  - intros ->. reflexivity.
  - intros s ->. reflexivity.
  - intros env'. rewrite call_status_eq. reflexivity.
  - intros script s Hs Hw Hf. rewrite Hf.
    destruct (find_session_callId _ _ _ Hf) as [Hin _].
    subst w.
    destruct (run_untouched script Hs init (fun s (H : In s []) => match H with end) s Hin)
      as (-> & -> & ->).
    reflexivity.
Qed.

Lemma call_status_returns_stored_witness :
  respond (env_at 9999) (GET_call_status "nonexistent") one_call
    = Some (res_status_json 404 (Failure "Call session not found"))
  /\ respond (env_at 9999) (GET_call_status "abc123") one_call
     = Some (res_json (StatusOk initiated None 1500 None)).
Proof.
  split.
  - apply (proj1 (call_status_returns_stored
                    (env_at 9999) one_call "nonexistent")).
    reflexivity.
  - destruct (call_status_returns_stored (env_at 9999) one_call "abc123")
      as (_ & _ & _ & _ & _ & H).
    apply (H [(env_at 1500, call_sample)]
             (initiated_session (env_at 1500) init "abc123" sample_phone));
      reflexivity.
Defined.

(** ** Starting a call *)

Lemma filter_find_session_None c ss :
  find_session c ss = None ->
  filter (fun s => (callId s =? c)%string) ss = [].
Proof.
  unfold find_session. induction ss as [|x ss IH]; simpl; [reflexivity|].
  destruct (callId x =? c)%string; [discriminate | exact IH].
Qed.

(** C4, as amended: for a non-empty phone number and a configured key,
    when the provider answers the start-call request with a non-empty
    conversation id [c] that no stored session carries yet, exactly one
    session is appended: its [callId] is [c], its status [initiated], its
    [startTime] the current time, its log the single system entry "Call
    initiated successfully"; the response is a success carrying [c] and
    the [_id] of that session. *)
Theorem make_call_creates_session env w phone d c :
  phone <> "" ->
  truthy (ELEVENLABS_API_KEY env) = true ->
  provider env (start_call_request env phone) = Returned d ->
  conversation_id d = Some c ->
  c <> "" ->
  find_session c (sessions w) = None ->
  let w' := step env (POST_make_call (Some phone)) w in
  exists s,
    sessions w' = (sessions w ++ [s])%list
    /\ filter (fun x => (callId x =? c)%string) (sessions w') = [s]
    /\ find_session c (sessions w') = Some s
    /\ callId s = c
    /\ phoneNumber s = phone
    /\ status s = initiated
    /\ startTime s = now env
    /\ endTime s = None
    /\ conversationLog s
       = [{| timestamp := now env; speaker := speaker_system;
             message := "Call initiated successfully" |}]
    /\ respond env (POST_make_call (Some phone)) w
       = Some (res_json (CallOk "Call initiated successfully"
                                (Some c) (_id s)))
    /\ success (res_json (CallOk "Call initiated successfully"
                                 (Some c) (_id s))) = true.
Proof.
  intros Hphone Hkey Hp Hd Hc Hf w'.
  assert (Hw' : handle (POST_make_call (Some phone)) env w =
                (Returned (res_json (CallOk "Call initiated successfully"
                                       (Some c) (next_id w))),
                 set_sessions
                   (sessions w ++ [initiated_session env w c phone])
                   (allocated (sent (start_call_request env phone) w)))).
  { rewrite make_call_eq, (nonempty_intro _ Hphone), Hkey. cbv zeta.
    simpl negb. cbv iota. rewrite Hp, Hd, (nonempty_intro _ Hc), Hf.
    reflexivity. }
  exists (initiated_session env w c phone).
  unfold w', step, respond. rewrite Hw'. simpl.
  repeat split; auto.
  - rewrite filter_app, (filter_find_session_None _ _ Hf). simpl.
    rewrite String.eqb_refl. reflexivity.
  - rewrite find_session_app, Hf. simpl. rewrite String.eqb_refl.
    reflexivity.
Qed.

Lemma make_call_creates_session_witness :
  respond (env_at 1500) call_sample init
  = Some (res_json (CallOk "Call initiated successfully" (Some "abc123") 0%nat))
  /\ length (sessions one_call) = 1%nat.
Proof.
  destruct (make_call_creates_session (env_at 1500) init sample_phone
              {| conversation_id := Some "abc123"; payload := "{}" |}
              "abc123")
    as (s & Hs & _ & _ & _ & _ & _ & _ & _ & _ & Hr & _);
    try reflexivity; try discriminate.
  unfold one_call, call_sample. rewrite Hs. split; [|reflexivity].
  vm_compute in Hs. injection Hs as <-. exact Hr.
Defined.

(** C4 as first stated fails: when the provider answers a second
    start-call request with the conversation id of a stored session, the
    unique [callId] rejects the new session, the response is a 500 and
    the collection still holds the one earlier session. *)
Lemma make_call_repeated_conversation_id :
  sample_phone <> ""
  /\ provider (env_at 2000) (start_call_request (env_at 2000) sample_phone)
     = Returned {| conversation_id := Some "abc123"; payload := "{}" |}
  /\ respond (env_at 2000) call_sample one_call
     = Some (res_status_json 500
               (Failure "E11000 duplicate key error index: callId_1"))
  /\ success (res_status_json 500
               (Failure "E11000 duplicate key error index: callId_1")) = false
  /\ sessions (step (env_at 2000) call_sample one_call) = sessions one_call
  /\ length (sessions (step (env_at 2000) call_sample one_call)) = 1%nat.
Proof.
  split; [discriminate|]. repeat split.
Qed.

Lemma response_status_is_true e n :
  response_status_is e n = true <->
  exists r, err_response e = Some r /\ resp_status r = n.
Proof.
  unfold response_status_is. destruct (err_response e) as [r|].
  - rewrite Z.eqb_eq. split; [eauto | intros (r' & [= <-] & H); exact H].
  - split; [discriminate | intros (r' & [=] & _)].
Qed.

Lemma response_status_is_false e n :
  (forall r, err_response e = Some r -> resp_status r <> n) ->
  response_status_is e n = false.
Proof.
  intros H. destruct (response_status_is e n) eqn:E; [|reflexivity].
  apply response_status_is_true in E as (r & Hr & Hn).
  destruct (H r Hr Hn).
Qed.

Lemma code_is_true e c : code_is e c = true <-> err_code e = code_str c.
Proof.
  unfold code_is. destruct (err_code e) as [|s|n];
    try (split; discriminate).
  rewrite String.eqb_eq. split; [intros ->; reflexivity | intros [= ->]; reflexivity].
Qed.

(** C5: when the start-call request to the provider fails, the response
    is a failure whose status and text follow the error: upstream 401
    gives 401 and the API-key text, upstream 400 gives 400 and the
    phone-number text, upstream 429 gives 429 and the rate-limit text, a
    timeout ([ECONNABORTED] with none of these statuses) gives 408, and
    any other error gives 500 with the upstream response's non-empty
    [detail], else (no response, no detail or an empty one) the error's
    own message, else "Failed to make call".  The session collection is
    left as it was. *)
Theorem make_call_provider_failure env w v phone e :
  nonempty v = Some phone ->
  truthy (ELEVENLABS_API_KEY env) = true ->
  provider env (start_call_request env phone) = Thrown e ->
  exists code msg,
    respond env (POST_make_call v) w
      = Some (res_status_json code (Failure msg))
    /\ success (res_status_json code (Failure msg)) = false
    /\ sessions (step env (POST_make_call v) w) = sessions w
    /\ (forall r, err_response e = Some r -> resp_status r = 401 ->
          code = 401 /\
          msg = "API Key Error: Check your ELEVENLABS_API_KEY in .env file")
    /\ (forall r, err_response e = Some r -> resp_status r = 400 ->
          code = 400 /\
          msg = "Phone Number Error: Make sure your number is in E.164 format")
    /\ (forall r, err_response e = Some r -> resp_status r = 429 ->
          code = 429 /\
          msg = "Rate limit exceeded. Please try again later.")
    /\ ((forall r, err_response e = Some r ->
           resp_status r <> 401 /\ resp_status r <> 400
           /\ resp_status r <> 429) ->
        (err_code e = code_str "ECONNABORTED" ->
           code = 408 /\ msg = "Request timeout. Please try again.")
        /\ (err_code e <> code_str "ECONNABORTED" ->
              code = 500
              /\ (forall r detail,
                    err_response e = Some r ->
                    resp_detail r = Some detail ->
                    detail <> "" ->
                    msg = detail)
              /\ ((err_response e = None
                   \/ exists r, err_response e = Some r
                                /\ (resp_detail r = None
                                    \/ resp_detail r = Some "")) ->
                  (err_message e <> "" -> msg = err_message e)
                  /\ (err_message e = "" -> msg = "Failed to make call")))).
Proof.
  intros Hv Hkey Hp.
  exists (snd (make_call_error e)), (fst (make_call_error e)).
  unfold respond, step. rewrite make_call_eq, Hv, Hkey. cbv zeta.
  simpl negb. cbv iota. rewrite Hp. cbn [fst snd].
  split; [reflexivity|]. split; [reflexivity|]. split; [reflexivity|].
  unfold make_call_error.
  split; [|split; [|split]].
  - intros r Hr Hs.
    rewrite (proj2 (response_status_is_true e 401)) by eauto. auto.
  - intros r Hr Hs.
    rewrite (response_status_is_false e 401) by (intros; congruence).
    rewrite (proj2 (response_status_is_true e 400)) by eauto. auto.
  - intros r Hr Hs.
    rewrite (response_status_is_false e 401) by (intros; congruence).
    rewrite (response_status_is_false e 400) by (intros; congruence).
    rewrite (proj2 (response_status_is_true e 429)) by eauto. auto.
  - intros Hn.
    rewrite !response_status_is_false by (intros r Hr; apply (Hn r Hr)).
    split.
    + intros Hc. rewrite (proj2 (code_is_true e _) Hc). auto.
    + intros Hc. destruct (code_is e "ECONNABORTED") eqn:E;
        [apply code_is_true in E; contradiction|].
      destruct (nonempty (response_detail e)) as [d|] eqn:Hd;
        unfold response_detail in Hd.
      * split; [reflexivity|]. split.
        -- intros r detail Hr Hdet Hne.
           rewrite Hr, Hdet, (nonempty_intro _ Hne) in Hd.
           injection Hd as <-. reflexivity.
        -- intros [H | (r & H & [H' | H'])]; rewrite H in Hd;
             try rewrite H' in Hd; discriminate Hd.
      * split; [destruct (negb _); reflexivity|]. split.
        -- intros r detail Hr Hdet Hne.
           rewrite Hr, Hdet, (nonempty_intro _ Hne) in Hd. discriminate Hd.
        -- intros _.
           destruct (String.eqb_spec (err_message e) ""); simpl; split;
             intros; congruence.
Qed.

Lemma make_call_provider_failure_witness :
  (respond env_rate_limited call_sample one_call
   = Some (res_status_json 429
             (Failure "Rate limit exceeded. Please try again later."))
   /\ sessions (step env_rate_limited call_sample one_call)
      = sessions one_call)
  /\ respond (env_failing upstream_rejected) call_sample one_call
     = Some (res_status_json 500 (Failure "Agent is not available"))
  /\ respond (env_failing network_down) call_sample one_call
     = Some (res_status_json 500
               (Failure "getaddrinfo ENOTFOUND api.elevenlabs.io")).
Proof.
  split; [|split].
  - destruct (make_call_provider_failure env_rate_limited one_call
                (Some sample_phone) sample_phone rate_limited
                eq_refl eq_refl eq_refl)
      as (code & msg & Hr & _ & Hs & _ & _ & H429 & _).
    destruct (H429 {| resp_status := 429; resp_detail := None |}
                   eq_refl eq_refl) as [-> ->].
    split; [exact Hr | exact Hs].
  - destruct (make_call_provider_failure (env_failing upstream_rejected)
                one_call (Some sample_phone) sample_phone upstream_rejected
                eq_refl eq_refl eq_refl)
      as (code & msg & Hr & _ & _ & _ & _ & _ & Hother).
    assert (Hst : forall r, err_response upstream_rejected = Some r ->
                    resp_status r <> 401 /\ resp_status r <> 400
                    /\ resp_status r <> 429).
    { intros r [= <-]. repeat split; discriminate. }
    assert (Hcode : err_code upstream_rejected <> code_str "ECONNABORTED")
      by discriminate.
    destruct (proj2 (Hother Hst) Hcode) as (-> & Hdetail & _).
    assert (Hne : "Agent is not available" <> "") by discriminate.
    rewrite (Hdetail _ "Agent is not available" eq_refl eq_refl Hne) in Hr.
    exact Hr.
  - destruct (make_call_provider_failure (env_failing network_down)
                one_call (Some sample_phone) sample_phone network_down
                eq_refl eq_refl eq_refl)
      as (code & msg & Hr & _ & _ & _ & _ & _ & Hother).
    assert (Hst : forall r, err_response network_down = Some r ->
                    resp_status r <> 401 /\ resp_status r <> 400
                    /\ resp_status r <> 429).
    { intros r [=]. }
    assert (Hcode : err_code network_down <> code_str "ECONNABORTED")
      by discriminate.
    destruct (proj2 (Hother Hst) Hcode) as (-> & _ & Hmsg).
    assert (Hne : err_message network_down <> "") by discriminate.
    rewrite (proj1 (Hmsg (or_introl eq_refl)) Hne) in Hr.
    exact Hr.
Defined.

(** C6: a start-call request needs a non-empty phone number and a
    configured key.  Without the phone number the answer is 400 "Phone
    number is required"; with it but without the key the answer is the
    500 naming ELEVENLABS_API_KEY; in both cases the world is left as it
    was, so nothing was sent to the provider and no session was created.
    With both, exactly the start-call request is sent. *)
Theorem make_call_preconditions env w v :
  (truthy v = false ->
     respond env (POST_make_call v) w
       = Some (res_status_json 400 (Failure "Phone number is required"))
     /\ step env (POST_make_call v) w = w)
  /\ (truthy v = true ->
      truthy (ELEVENLABS_API_KEY env) = false ->
      respond env (POST_make_call v) w
        = Some (res_status_json 500
                  (Failure "ElevenLabs API key not configured. Please add ELEVENLABS_API_KEY to your .env file"))
      /\ step env (POST_make_call v) w = w)
  /\ (respond env (POST_make_call (Some "")) w
        = Some (res_status_json 400 (Failure "Phone number is required"))
      /\ outbound (step env (POST_make_call (Some "")) w) = outbound w
      /\ sessions (step env (POST_make_call (Some "")) w) = sessions w)
  /\ (forall phone,
        nonempty v = Some phone ->
        truthy (ELEVENLABS_API_KEY env) = true ->
        outbound (step env (POST_make_call v) w)
        = (outbound w ++ [start_call_request env phone])%list).
Proof.
  unfold respond, step. split; [|split; [|split]].
  - intros H. rewrite make_call_eq. apply nonempty_falsy in H.
    rewrite H. split; reflexivity.
  - intros H Hkey. rewrite make_call_eq.
    apply nonempty_truthy in H as [phone ->].
    rewrite Hkey. split; reflexivity.
  - rewrite make_call_eq. repeat split; reflexivity.
  - intros phone Hv Hkey. rewrite make_call_eq, Hv, Hkey. cbv zeta.
    simpl negb. cbv iota.
    destruct (provider env _) as [d|e]; [|reflexivity].
    destruct (nonempty (conversation_id d)) as [c|]; [|reflexivity].
    destruct (find_session c (sessions w)); reflexivity.
Qed.

Lemma make_call_preconditions_witness :
  respond (env_at 1500) (POST_make_call None) one_call
    = Some (res_status_json 400 (Failure "Phone number is required"))
  /\ respond env_unconfigured call_sample one_call
     = Some (res_status_json 500
               (Failure "ElevenLabs API key not configured. Please add ELEVENLABS_API_KEY to your .env file"))
  /\ step env_unconfigured call_sample one_call = one_call.
Proof.
  split.
  - apply (proj1 (make_call_preconditions (env_at 1500) one_call None)).
    reflexivity.
  - apply (proj1 (proj2 (make_call_preconditions
                           env_unconfigured one_call (Some sample_phone))));
      reflexivity.
Defined.

(** ** Users *)

(** C8: registration is answered with 400 "All fields are required." when
    the username, the mobile number or the password is missing or empty;
    with 409 "Username already exists." when a user of that name is
    stored; in both cases the world is left as it was.  Otherwise the
    user is appended with the password as given, and the answer carries
    the username and the mobile number only.  Registering the same name
    again is then answered with 409, whatever the other fields. *)
Theorem register_validates_then_creates env w u m p :
  (truthy u = false \/ truthy m = false \/ truthy p = false ->
     respond env (POST_register u m p) w
       = Some (res_status_json 400 (Failure "All fields are required."))
     /\ step env (POST_register u m p) w = w)
  /\ (forall name mob pw existing,
        nonempty u = Some name -> nonempty m = Some mob ->
        nonempty p = Some pw ->
        find_user name (users w) = Some existing ->
        respond env (POST_register u m p) w
          = Some (res_status_json 409 (Failure "Username already exists."))
        /\ step env (POST_register u m p) w = w)
  /\ (forall name mob pw,
        nonempty u = Some name -> nonempty m = Some mob ->
        nonempty p = Some pw ->
        find_user name (users w) = None ->
        respond env (POST_register u m p) w
          = Some (res_json (UserOk name mob))
        /\ users (step env (POST_register u m p) w)
           = (users w ++ [{| username := name; mobile := mob;
                             password := pw |}])%list
        /\ (forall env' m' p',
              truthy m' = true -> truthy p' = true ->
              respond env' (POST_register u m' p')
                (step env (POST_register u m p) w)
              = Some (res_status_json 409
                        (Failure "Username already exists.")))).
Proof.
  unfold respond, step. split; [|split].
  - intros H. rewrite register_eq.
    destruct H as [H | [H | H]]; apply nonempty_falsy in H; rewrite H;
      destruct (nonempty u); try destruct (nonempty m); split; reflexivity.
  - intros name mob pw existing Hu Hm Hp Hf.
    rewrite register_eq, Hu, Hm, Hp, Hf. split; reflexivity.
  - intros name mob pw Hu Hm Hp Hf.
    rewrite register_eq, Hu, Hm, Hp, Hf. cbn [fst snd].
    repeat split.
    intros env' m' p' Hm' Hp'. rewrite register_eq, Hu.
    apply nonempty_truthy in Hm' as [mob' ->], Hp' as [pw' ->].
    cbn [users set_users]. rewrite find_user_app, Hf. cbn [username].
    rewrite String.eqb_refl. reflexivity.
Qed.

Lemma register_validates_then_creates_witness :
  respond (env_at 1500) register_alice init
    = Some (res_json (UserOk "alice" "+15550001111"))
  /\ respond (env_at 2000) register_alice (step (env_at 1500) register_alice init)
     = Some (res_status_json 409 (Failure "Username already exists."))
  /\ respond (env_at 1500) (POST_register (Some "alice") None (Some "s3cret"))
       init
     = Some (res_status_json 400 (Failure "All fields are required.")).
Proof.
  destruct (register_validates_then_creates (env_at 1500) init
              (Some "alice") (Some "+15550001111") (Some "s3cret"))
    as (_ & _ & Hnew).
  destruct (Hnew "alice" "+15550001111" "s3cret"
                 eq_refl eq_refl eq_refl eq_refl) as (Hok & _ & Hagain).
  split; [exact Hok|]. split.
  - apply (Hagain (env_at 2000) (Some "+15550001111") (Some "s3cret"));
      reflexivity.
  - apply (proj1 (register_validates_then_creates (env_at 1500) init
                    (Some "alice") None (Some "s3cret"))).
    right; left; reflexivity.
Defined.

(** C9: login is answered with 400 "All fields are required." when the
    username or the password is missing or empty; with 401 "Invalid
    username or password." when no user of that name is stored or the
    stored password differs in any way from the one supplied (the two
    strings are compared as they are); and otherwise with the stored
    username and mobile number.  Login never changes the world. *)
Theorem login_compares_plain_password env w u p :
  (truthy u = false \/ truthy p = false ->
     respond env (POST_login u p) w
       = Some (res_status_json 400 (Failure "All fields are required.")))
  /\ (forall name pw,
        nonempty u = Some name -> nonempty p = Some pw ->
        find_user name (users w) = None ->
        respond env (POST_login u p) w
          = Some (res_status_json 401
                    (Failure "Invalid username or password.")))
  /\ (forall name pw usr,
        nonempty u = Some name -> nonempty p = Some pw ->
        find_user name (users w) = Some usr ->
        password usr <> pw ->
        respond env (POST_login u p) w
          = Some (res_status_json 401
                    (Failure "Invalid username or password.")))
  /\ (forall name pw usr,
        nonempty u = Some name -> nonempty p = Some pw ->
        find_user name (users w) = Some usr ->
        password usr = pw ->
        respond env (POST_login u p) w
          = Some (res_json (UserOk name (mobile usr)))
        /\ username usr = name)
  /\ step env (POST_login u p) w = w.
Proof.
  unfold respond, step. rewrite login_eq. cbn [fst snd].
  split; [|split; [|split; [|split]]].
  - intros [H | H]; apply nonempty_falsy in H; rewrite H;
      [|destruct (nonempty u)]; reflexivity.
  - intros name pw -> -> ->. reflexivity.
  - intros name pw usr -> -> -> Hne.
    destruct (String.eqb_spec (password usr) pw); [contradiction|].
    reflexivity.
  - intros name pw usr -> -> Hf <-. rewrite Hf, String.eqb_refl.
    unfold find_user in Hf. apply find_some in Hf as [_ Hn].
    apply String.eqb_eq in Hn. rewrite Hn. split; reflexivity.
  - reflexivity.
Qed.

Lemma login_compares_plain_password_witness :
  respond (env_at 2000) (POST_login (Some "alice") (Some "s3cret"))
    (step (env_at 1500) register_alice init)
    = Some (res_json (UserOk "alice" "+15550001111"))
  /\ respond (env_at 2000) (POST_login (Some "alice") (Some "s3cre"))
       (step (env_at 1500) register_alice init)
     = Some (res_status_json 401 (Failure "Invalid username or password."))
  /\ respond (env_at 2000) (POST_login (Some "alice") (Some "S3cret"))
       (step (env_at 1500) register_alice init)
     = Some (res_status_json 401 (Failure "Invalid username or password.")).
Proof.
  split; [|split].
  - destruct (login_compares_plain_password (env_at 2000)
                (step (env_at 1500) register_alice init)
                (Some "alice") (Some "s3cret")) as (_ & _ & _ & H & _).
    apply (H "alice" "s3cret" alice); reflexivity.
  - destruct (login_compares_plain_password (env_at 2000)
                (step (env_at 1500) register_alice init)
                (Some "alice") (Some "s3cre")) as (_ & _ & H & _).
    apply (H "alice" "s3cre" alice); try reflexivity. discriminate.
  - destruct (login_compares_plain_password (env_at 2000)
                (step (env_at 1500) register_alice init)
                (Some "alice") (Some "S3cret")) as (_ & _ & H & _).
    apply (H "alice" "S3cret" alice); try reflexivity. discriminate.
Defined.

(** ** Consistency of the store *)

(** The four ways a request can change the world (the trace of provider
    requests apart): not at all but for the [_id] counter, by a new user,
    by a new session, or by ending a session. *)
Lemma step_cases env rq w :
  (users (step env rq w) = users w
   /\ sessions (step env rq w) = sessions w
   /\ (next_id w <= next_id (step env rq w))%nat)
  \/ (exists name mob pw,
        is_register rq = true
        /\ name <> "" /\ mob <> "" /\ pw <> ""
        /\ find_user name (users w) = None
        /\ users (step env rq w)
           = (users w ++ [{| username := name; mobile := mob;
                             password := pw |}])%list
        /\ sessions (step env rq w) = sessions w
        /\ next_id (step env rq w) = next_id w)
  \/ (exists c phone,
        rq = POST_make_call (Some phone)
        /\ c <> "" /\ phone <> ""
        /\ find_session c (sessions w) = None
        /\ sessions (step env rq w)
           = (sessions w ++ [initiated_session env w c phone])%list
        /\ users (step env rq w) = users w
        /\ next_id (step env rq w) = S (next_id w))
  \/ (exists c s,
        rq = POST_end_call c
        /\ find_session c (sessions w) = Some s
        /\ sessions (step env rq w)
           = map (fun x => if (_id x =? _id s)%nat
                           then end_session s (now env) else x) (sessions w)
        /\ users (step env rq w) = users w
        /\ next_id (step env rq w) = next_id w).
Proof.
  unfold step. destruct rq as [u m p|u p|v|c|c|].
  - rewrite register_eq.
    destruct (nonempty u) as [name|] eqn:Hu; [|left; repeat split; auto].
    destruct (nonempty m) as [mob|] eqn:Hm; [|left; repeat split; auto].
    destruct (nonempty p) as [pw|] eqn:Hp; [|left; repeat split; auto].
    destruct (find_user name (users w)) eqn:Hf; [left; repeat split; auto|].
    right; left. exists name, mob, pw.
    apply nonempty_Some in Hu as [_ Hu], Hm as [_ Hm], Hp as [_ Hp].
    repeat split; auto.
  - left. rewrite login_eq. repeat split; auto.
  - rewrite make_call_eq.
    destruct (nonempty v) as [phone|] eqn:Hv; [|left; repeat split; auto].
    apply nonempty_Some in Hv as [-> Hphone].
    destruct (negb _); [left; repeat split; auto|].
    cbv zeta. destruct (provider _ _) as [d|e]; [|left; repeat split; auto].
    destruct (nonempty (conversation_id d)) as [c|] eqn:Hc;
      [|left; simpl; repeat split; auto].
    apply nonempty_Some in Hc as [_ Hc].
    destruct (find_session c (sessions w)) eqn:Hf;
      [left; simpl; repeat split; auto|].
    right; right; left. exists c, phone. repeat split; auto.
  - left. rewrite call_status_eq. repeat split; auto.
  - rewrite end_call_eq. cbv zeta.
    destruct (provider _ _) as [d|e]; [|left; repeat split; auto].
    destruct (find_session c (sessions w)) as [s|] eqn:Hf;
      [|left; repeat split; auto].
    right; right; right. exists c, s. repeat split; auto.
  - left. repeat split; auto.
Qed.

Lemma NoDup_map_eq {A B} (f : A -> B) l x y :
  NoDup (map f l) -> In x l -> In y l -> f x = f y -> x = y.
Proof.
  induction l as [|a l IH]; simpl; intros Hnd Hx Hy Hf; [destruct Hx|].
  inversion Hnd as [|? ? Hnotin Hnd']; subst.
  destruct Hx as [-> | Hx], Hy as [-> | Hy]; auto.
  - destruct Hnotin. rewrite Hf. apply in_map, Hy.
  - destruct Hnotin. rewrite <- Hf. apply in_map, Hx.
Qed.

Lemma find_user_None_not_in name us :
  find_user name us = None -> ~ In name (map username us).
Proof.
  unfold find_user. intros Hf Hin.
  apply in_map_iff in Hin as (u & Hu & Hin).
  apply (find_none _ _ Hf) in Hin. rewrite Hu, String.eqb_refl in Hin.
  discriminate.
Qed.

Lemma find_session_None_not_in c ss :
  find_session c ss = None -> ~ In c (map callId ss).
Proof.
  unfold find_session. intros Hf Hin.
  apply in_map_iff in Hin as (s & Hs & Hin).
  apply (find_none _ _ Hf) in Hin. rewrite Hs, String.eqb_refl in Hin.
  discriminate.
Qed.

Lemma NoDup_snoc {A} (l : list A) x : NoDup l -> ~ In x l -> NoDup (l ++ [x]).
Proof.
  intros Hl Hx. apply NoDup_app; [exact Hl | repeat constructor; auto |].
  intros a Ha [<- | []]. exact (Hx Ha).
Qed.

(** With unique [_id]s, saving the ended session replaces that session
    only, so every document keeps its keys. *)
Lemma end_update_keys ss s t :
  NoDup (map _id ss) -> In s ss ->
  let f := fun x => if (_id x =? _id s)%nat then end_session s t else x in
  map callId (map f ss) = map callId ss
  /\ map _id (map f ss) = map _id ss.
Proof.
  intros Hnd Hs f. rewrite !map_map. split; apply map_ext_in; intros x Hx;
    unfold f; destruct (Nat.eqb_spec (_id x) (_id s)) as [Hid|Hid]; auto.
  rewrite (NoDup_map_eq _id ss x s Hnd Hx Hs Hid). reflexivity.
Qed.

Lemma end_session_ok s t : session_ok s -> session_ok (end_session s t).
Proof.
  intros (Hc & Hp & _). repeat split; auto.
  right. exists t. repeat split.
Qed.

(** Serving a request keeps the store consistent. *)
Lemma step_consistent env rq w : consistent w -> consistent (step env rq w).
Proof.
  intros [Hu Hun Hs Hcn Hin Hib].
  destruct (step_cases env rq w)
    as [(Eu & Es & En)
       | [(name & mob & pw & _ & Hn & Hm & Hp & Hf & Eu & Es & En)
         | [(c & phone & _ & Hc & Hph & Hf & Es & Eu & En)
           | (c & s & _ & Hf & Es & Eu & En)]]].
  - constructor; rewrite ?Eu, ?Es; auto.
    eapply Forall_impl; [|exact Hib]. simpl. intros; lia.
  - constructor; rewrite ?Eu, ?Es, ?En; auto.
    + apply Forall_app. split; [exact Hu|].
      repeat constructor; assumption.
    + rewrite map_app. simpl.
      apply NoDup_snoc; [exact Hun|].
      apply find_user_None_not_in, Hf.
  - constructor; rewrite ?Eu, ?Es, ?En; auto.
    + apply Forall_app. split; [exact Hs|].
      repeat constructor; auto.
    + rewrite map_app. simpl.
      apply NoDup_snoc; [exact Hcn|].
      apply find_session_None_not_in, Hf.
    + rewrite map_app. simpl.
      apply NoDup_snoc; [exact Hin|].
      intros Hi. apply in_map_iff in Hi as (x & Hx & Hi).
      rewrite Forall_forall in Hib. apply Hib in Hi. lia.
    + apply Forall_app. split.
      * eapply Forall_impl; [|exact Hib]. simpl. intros; lia.
      * repeat constructor.
  - destruct (find_session_callId _ _ _ Hf) as [Hs0 _].
    destruct (end_update_keys (sessions w) s (now env) Hin Hs0) as [Ek Ei].
    constructor; rewrite ?Eu, ?Es, ?En; auto.
    + rewrite Forall_forall in *. intros y Hy.
      apply in_map_iff in Hy as (x & <- & Hx).
      destruct (_id x =? _id s)%nat; auto using end_session_ok.
    + rewrite Ek. exact Hcn.
    + rewrite Ei. exact Hin.
    + rewrite Forall_forall in *. intros y Hy.
      apply in_map_iff in Hy as (x & <- & Hx).
      destruct (Nat.eqb_spec (_id x) (_id s)) as [E|E]; auto.
      simpl. rewrite <- E. auto.
Qed.

Lemma init_consistent : consistent init.
Proof. constructor; simpl; constructor. Qed.

Lemma run_consistent script w : consistent w -> consistent (run script w).
Proof.
  revert w. induction script as [|[env rq] rest IH]; simpl; intros w Hw.
  - exact Hw.
  - apply IH, step_consistent, Hw.
Qed.

Lemma reachable_consistent w : reachable w -> consistent w.
Proof.
  induction 1 as [|env rq w _ IH].
  - exact init_consistent.
  - apply step_consistent, IH.
Qed.

Lemma NoDup_find_session ss s :
  NoDup (map callId ss) -> In s ss -> find_session (callId s) ss = Some s.
Proof.
  unfold find_session. induction ss as [|x ss IH]; simpl; intros Hnd Hin.
  - destruct Hin.
  - inversion Hnd as [|? ? Hx Hnd']; subst.
    destruct Hin as [-> | Hin]; [rewrite String.eqb_refl; reflexivity|].
    destruct (String.eqb_spec (callId x) (callId s)) as [E|E]; [|auto].
    destruct Hx. rewrite E. apply in_map, Hin.
Qed.

Lemma NoDup_find_user us u :
  NoDup (map username us) -> In u us -> find_user (username u) us = Some u.
Proof.
  unfold find_user. induction us as [|x us IH]; simpl; intros Hnd Hin.
  - destruct Hin.
  - inversion Hnd as [|? ? Hx Hnd']; subst.
    destruct Hin as [-> | Hin]; [rewrite String.eqb_refl; reflexivity|].
    destruct (String.eqb_spec (username x) (username u)) as [E|E]; [|auto].
    destruct Hx. rewrite E. apply in_map, Hin.
Qed.

(** X1: in every reachable world the stored sessions have pairwise
    different, non-empty [callId]s, so each stored session is the one
    [findOne] returns for its [callId] and the one a status lookup
    reports. *)
Theorem stored_session_found_by_callId w :
  reachable w ->
  NoDup (map callId (sessions w))
  /\ (forall s,
        In s (sessions w) ->
        callId s <> "" /\ phoneNumber s <> ""
        /\ find_session (callId s) (sessions w) = Some s
        /\ (forall env,
              respond env (GET_call_status (callId s)) w
              = Some (res_json (StatusOk (status s) (duration s)
                                         (startTime s) (endTime s))))).
Proof.
  intros Hr. destruct (reachable_consistent w Hr) as [_ _ Hs Hcn _ _].
  split; [exact Hcn|]. intros s Hin.
  rewrite Forall_forall in Hs. destruct (Hs s Hin) as (Hc & Hp & _).
  pose proof (NoDup_find_session _ _ Hcn Hin) as Hf.
  repeat split; auto.
  intros env. unfold respond. rewrite call_status_eq. simpl.
  rewrite Hf. reflexivity.
Qed.

Lemma stored_session_found_by_callId_witness :
  find_session "abc123" (sessions one_call)
  = Some (initiated_session (env_at 1500) init "abc123" sample_phone).
Proof.
  apply (proj2 (stored_session_found_by_callId one_call one_call_reachable)
               (initiated_session (env_at 1500) init "abc123" sample_phone)).
  left. reflexivity.
Defined.

(** X2: in every reachable world the stored users have pairwise different
    usernames and non-empty username, mobile and password, and each stored
    user logs in with the stored username and password and gets the
    stored mobile number back. *)
Theorem stored_user_can_log_in w :
  reachable w ->
  NoDup (map username (users w))
  /\ (forall u,
        In u (users w) ->
        username u <> "" /\ mobile u <> "" /\ password u <> ""
        /\ find_user (username u) (users w) = Some u
        /\ (forall env,
              respond env (POST_login (Some (username u)) (Some (password u))) w
              = Some (res_json (UserOk (username u) (mobile u))))).
Proof.
  intros Hr. destruct (reachable_consistent w Hr) as [Hu Hun _ _ _ _].
  split; [exact Hun|]. intros u Hin.
  rewrite Forall_forall in Hu. destruct (Hu u Hin) as (Hn & Hm & Hp).
  pose proof (NoDup_find_user _ _ Hun Hin) as Hf.
  repeat split; auto.
  intros env. unfold respond. rewrite login_eq. cbn [fst].
  rewrite (nonempty_intro _ Hn), (nonempty_intro _ Hp), Hf, String.eqb_refl.
  reflexivity.
Qed.

Lemma stored_user_can_log_in_witness :
  respond (env_at 2000) (POST_login (Some "alice") (Some "s3cret"))
    (step (env_at 1500) register_alice init)
  = Some (res_json (UserOk "alice" "+15550001111")).
Proof.
  apply (proj2 (stored_user_can_log_in
                  (step (env_at 1500) register_alice init)
                  (reachable_step _ _ _ reachable_init)) alice).
  left. reflexivity.
Defined.

Lemma find_session_map_other c' f ss :
  (forall x, In x ss ->
     f x = x \/ ((callId x =? c')%string = false
                 /\ (callId (f x) =? c')%string = false)) ->
  find_session c' (map f ss) = find_session c' ss.
Proof.
  unfold find_session. induction ss as [|x ss IH]; simpl; intros H.
  - reflexivity.
  - destruct (H x (or_introl eq_refl)) as [-> | [-> ->]];
      rewrite IH by (intros y Hy; apply H; right; exact Hy); reflexivity.
Qed.

(** X3: in every reachable world, ending the call [c] leaves the session
    of every other [callId] exactly as it was, changes no user and
    neither adds nor removes a session. *)
Theorem end_call_leaves_other_sessions w env c :
  reachable w ->
  (forall c', c' <> c ->
     find_session c' (sessions (step env (POST_end_call c) w))
     = find_session c' (sessions w))
  /\ users (step env (POST_end_call c) w) = users w
  /\ length (sessions (step env (POST_end_call c) w))
     = length (sessions w)
  /\ map callId (sessions (step env (POST_end_call c) w))
     = map callId (sessions w).
Proof.
  intros Hr. destruct (reachable_consistent w Hr) as [_ _ _ _ Hin _].
  unfold step. rewrite end_call_eq. cbv zeta.
  destruct (provider env _) as [ack|e]; [|repeat split; reflexivity].
  destruct (find_session c (sessions w)) as [s|] eqn:Hf;
    [|repeat split; reflexivity].
  destruct (find_session_callId _ _ _ Hf) as [Hs Hc].
  cbn [snd sessions users set_sessions sent].
  split; [|split; [|split]].
  - intros c' Hc'. apply find_session_map_other. intros x Hx.
    destruct (Nat.eqb_spec (_id x) (_id s)) as [E|E]; [right | left; auto].
    rewrite (NoDup_map_eq _id _ x s Hin Hx Hs E). simpl. rewrite Hc.
    destruct (String.eqb_spec c c'); [congruence | auto].
  - reflexivity.
  - apply length_map.
  - apply (end_update_keys _ s (now env) Hin Hs).
Qed.

Lemma end_call_leaves_other_sessions_witness :
  find_session "abc123"
    (sessions (step (env_at 4999) (POST_end_call "other") one_call))
  = find_session "abc123" (sessions one_call).
Proof.
  apply (proj1 (end_call_leaves_other_sessions one_call (env_at 4999) "other"
                  one_call_reachable)).
  discriminate.
Defined.

(** X4: in every reachable world a stored session is either as created
    ([initiated], no [endTime], no [duration]) or as ended ([completed],
    with an [endTime] and with [duration] the whole seconds between its
    [startTime] and that [endTime]); a duration is never stored without
    an end time. *)
Theorem reachable_session_shape w s :
  reachable w ->
  In s (sessions w) ->
  ((status s = initiated /\ endTime s = None /\ duration s = None)
   \/ (exists e, status s = completed /\ endTime s = Some e
                 /\ duration s = Some ((e - startTime s) / 1000)))
  /\ (endTime s = None <-> duration s = None).
Proof.
  intros Hr Hin. destruct (reachable_consistent w Hr) as [_ _ Hs _ _ _].
  rewrite Forall_forall in Hs. destruct (Hs s Hin) as (_ & _ & H).
  split; [exact H|].
  destruct H as [(_ & -> & ->) | (e & _ & -> & ->)]; split; auto; discriminate.
Qed.

Lemma reachable_session_shape_witness :
  exists s,
    find_session "abc123"
      (sessions (step (env_at 4999) (POST_end_call "abc123") one_call))
    = Some s
    /\ exists e, status s = completed /\ endTime s = Some e
                 /\ duration s = Some ((e - startTime s) / 1000).
Proof.
  exists (end_session
            (initiated_session (env_at 1500) init "abc123" sample_phone) 4999).
  split; [reflexivity|].
  destruct (reachable_session_shape
              (step (env_at 4999) (POST_end_call "abc123") one_call)
              (end_session
                 (initiated_session (env_at 1500) init "abc123" sample_phone)
                 4999)
              (reachable_step _ _ _ one_call_reachable)
              (or_introl eq_refl))
    as [[(H & _) | H] _]; [discriminate H | exact H].
Defined.

(** ** Responses *)

Lemma make_call_error_cases e :
  make_call_error e
    = ("API Key Error: Check your ELEVENLABS_API_KEY in .env file", 401)
  \/ make_call_error e
     = ("Phone Number Error: Make sure your number is in E.164 format", 400)
  \/ make_call_error e = ("Rate limit exceeded. Please try again later.", 429)
  \/ make_call_error e = ("Request timeout. Please try again.", 408)
  \/ make_call_error e = ("Failed to make call", 500)
  \/ (exists text, text <> "" /\ make_call_error e = (text, 500)
                   /\ (nonempty (response_detail e) = Some text
                       \/ text = err_message e)).
Proof.
  unfold make_call_error.
  destruct (response_status_is e 401); [auto|].
  destruct (response_status_is e 400); [auto|].
  destruct (response_status_is e 429); [auto|].
  destruct (code_is e "ECONNABORTED"); [auto 6|].
  destruct (nonempty (response_detail e)) as [d|] eqn:Hd.
  - do 5 right. exists d. apply nonempty_Some in Hd as [_ Hd]. auto.
  - destruct (String.eqb_spec (err_message e) ""); simpl; [auto 6|].
    do 5 right. exists (err_message e). auto.
Qed.

(** X11: whatever error reaches the catch block of make-call, the status
    it answers with is one of 401, 400, 429, 408 and 500, the error text
    is never empty, and a text taken from the error (the upstream detail
    or the error's message) is only ever sent with status 500. *)
Theorem make_call_error_is_bounded e :
  In (snd (make_call_error e)) [401; 400; 429; 408; 500]
  /\ fst (make_call_error e) <> ""
  /\ (snd (make_call_error e) <> 500 ->
      In (fst (make_call_error e))
         ["API Key Error: Check your ELEVENLABS_API_KEY in .env file";
          "Phone Number Error: Make sure your number is in E.164 format";
          "Rate limit exceeded. Please try again later.";
          "Request timeout. Please try again."]).
Proof.
  destruct (make_call_error_cases e)
    as [E | [E | [E | [E | [E | (text & Ht & E & _)]]]]];
    rewrite E; cbn [fst snd];
    (split; [simpl; tauto | split; [try discriminate; assumption|]]);
    intros H; try (simpl; tauto); contradiction.
Qed.

Lemma make_call_error_is_bounded_witness :
  In (fst (make_call_error timeout_with_429))
     ["API Key Error: Check your ELEVENLABS_API_KEY in .env file";
      "Phone Number Error: Make sure your number is in E.164 format";
      "Rate limit exceeded. Please try again later.";
      "Request timeout. Please try again."].
Proof.
  apply (proj2 (proj2 (make_call_error_is_bounded timeout_with_429))).
  vm_compute. discriminate.
Defined.

Lemma make_call_error_known e :
  known_status (snd (make_call_error e)) = true
  /\ snd (make_call_error e) <> 200.
Proof.
  destruct (make_call_error_cases e)
    as [E | [E | [E | [E | [E | (text & Ht & E & _)]]]]];
    rewrite E; split; (reflexivity || discriminate).
Qed.

(** X5: every request is answered (no handler lets an error escape), the
    status is one of 200, 400, 401, 404, 408, 409, 429 and 500, and, the
    health check apart, the body says success exactly when the status is
    200. *)
Theorem every_request_is_answered env rq w :
  exists r,
    respond env rq w = Some r
    /\ known_status (statusCode r) = true
    /\ (is_health rq = false -> (success r = true <-> statusCode r = 200)).
Proof.
  unfold respond. destruct rq as [u m p|u p|v|c|c|].
  - rewrite register_eq.
    destruct (nonempty u), (nonempty m), (nonempty p);
      try destruct (find_user _ _);
      eexists; (split; [reflexivity|]); split; try reflexivity;
      intros _; split; discriminate || reflexivity.
  - rewrite login_eq. cbn [fst].
    destruct (nonempty u), (nonempty p);
      try destruct (find_user _ _);
      try destruct (_ =? _)%string;
      eexists; (split; [reflexivity|]); split; try reflexivity;
      intros _; split; discriminate || reflexivity.
  - rewrite make_call_eq.
    destruct (nonempty v) as [phone|];
      [|eexists; (split; [reflexivity|]); split; try reflexivity;
        intros _; split; discriminate].
    destruct (negb _);
      [eexists; (split; [reflexivity|]); split; try reflexivity;
       intros _; split; discriminate|].
    cbv zeta. destruct (provider _ _) as [d|e].
    + destruct (nonempty (conversation_id d)) as [c|];
        try destruct (find_session c (sessions w));
        eexists; (split; [reflexivity|]); split; try reflexivity;
        intros _; split; discriminate || reflexivity.
    + destruct (make_call_error_known e) as [Hk Hn].
      eexists; (split; [reflexivity|]); split; [exact Hk|].
      intros _; split; [discriminate | intros H; contradiction].
  - rewrite call_status_eq. cbn [fst].
    destruct (find_session c (sessions w));
      eexists; (split; [reflexivity|]); split; try reflexivity;
      intros _; split; discriminate || reflexivity.
  - rewrite end_call_eq. cbv zeta.
    destruct (provider _ _);
      eexists; (split; [reflexivity|]); split; try reflexivity;
      intros _; split; discriminate || reflexivity.
  - eexists; (split; [reflexivity|]); split; [reflexivity|]. discriminate.
Qed.

Lemma every_request_is_answered_witness :
  exists r,
    respond env_rate_limited call_sample one_call = Some r
    /\ (success r = true <-> statusCode r = 200).
Proof.
  destruct (every_request_is_answered env_rate_limited call_sample one_call)
    as (r & Hr & _ & H).
  exists r. split; [exact Hr | exact (H eq_refl)].
Defined.

(** ** Calls *)

(** X9: a make-call request adds a session exactly when it is answered
    with success.  On success one session is appended, keyed by the
    [callId] of the response, which no session carried before, and a
    status lookup for that [callId] right after finds it [initiated],
    started now, with no duration and no end time.  On any failure the
    sessions and the users are as before. *)
Theorem make_call_session_iff_success env w v :
  exists r,
    respond env (POST_make_call v) w = Some r
    /\ users (step env (POST_make_call v) w) = users w
    /\ (success r = false ->
        sessions (step env (POST_make_call v) w) = sessions w)
    /\ (success r = true ->
        exists c s,
          r = res_json (CallOk "Call initiated successfully" (Some c) (_id s))
          /\ find_session c (sessions w) = None
          /\ sessions (step env (POST_make_call v) w)
             = (sessions w ++ [s])%list
          /\ callId s = c
          /\ nonempty v = Some (phoneNumber s)
          /\ forall env',
               respond env' (GET_call_status c)
                 (step env (POST_make_call v) w)
               = Some (res_json (StatusOk initiated None (now env) None))).
Proof.
  unfold respond at 1. unfold step. rewrite make_call_eq.
  destruct (nonempty v) as [phone|];
    [|eexists; repeat split; try reflexivity; discriminate].
  destruct (negb _);
    [eexists; repeat split; try reflexivity; discriminate|].
  cbv zeta. destruct (provider _ _) as [d|e];
    [|eexists; repeat split; try reflexivity; discriminate].
  destruct (nonempty (conversation_id d)) as [c|];
    [|eexists; repeat split; try reflexivity; discriminate].
  destruct (find_session c (sessions w)) eqn:Hf;
    [eexists; repeat split; try reflexivity; discriminate|].
  eexists. split; [reflexivity|]. split; [reflexivity|].
  split; [discriminate|]. intros _.
  exists c, (initiated_session env w c phone).
  repeat split; auto.
  intros env'. unfold respond. rewrite call_status_eq.
  cbn [fst snd sessions set_sessions].
  rewrite find_session_app, Hf. simpl. rewrite String.eqb_refl. reflexivity.
Qed.

Lemma make_call_session_iff_success_witness :
  sessions (step env_rate_limited call_sample one_call) = sessions one_call
  /\ respond (env_at 9999) (GET_call_status "abc123") one_call
     = Some (res_json (StatusOk initiated None 1500 None)).
Proof.
  split.
  - destruct (make_call_session_iff_success env_rate_limited one_call
                (Some sample_phone)) as (r & Hr & _ & Hfail & _).
    apply Hfail. injection Hr as <-. reflexivity.
  - destruct (make_call_session_iff_success (env_at 1500) init
                (Some sample_phone)) as (r & Hr & _ & _ & Hok).
    injection Hr as <-.
    destruct (Hok eq_refl) as (c & s & Hc & _ & _ & _ & _ & Hst).
    injection Hc as <- _. exact (Hst (env_at 9999)).
Defined.

(** X10: when the provider rejects or drops the end-call request, the
    answer is 500 "Failed to end call" and the stored session, if any,
    is not touched: a status lookup answers as it did before. *)
Theorem end_call_provider_failure env w c e :
  provider env (end_call_request env c) = Thrown e ->
  respond env (POST_end_call c) w
    = Some (res_status_json 500 (Failure "Failed to end call"))
  /\ sessions (step env (POST_end_call c) w) = sessions w
  /\ users (step env (POST_end_call c) w) = users w
  /\ (forall env' c',
        respond env' (GET_call_status c') (step env (POST_end_call c) w)
        = respond env' (GET_call_status c') w).
Proof.
  intros Hp. unfold respond, step. rewrite end_call_eq. cbv zeta. rewrite Hp.
  repeat split. intros env' c'. rewrite !call_status_eq. reflexivity.
Qed.

Lemma end_call_provider_failure_witness :
  respond env_rate_limited (POST_end_call "abc123") one_call
    = Some (res_status_json 500 (Failure "Failed to end call"))
  /\ respond (env_at 9999) (GET_call_status "abc123")
       (step env_rate_limited (POST_end_call "abc123") one_call)
     = Some (res_json (StatusOk initiated None 1500 None)).
Proof.
  destruct (end_call_provider_failure env_rate_limited one_call "abc123"
              rate_limited eq_refl) as (Hr & _ & _ & Hst).
  split; [exact Hr|]. rewrite Hst. reflexivity.
Defined.

Lemma step_outbound env rq w :
  outbound (step env rq w) = (outbound w ++ provider_requests env rq)%list.
Proof.
  unfold step. destruct rq as [u m p|u p|v|c|c|]; simpl provider_requests.
  - rewrite register_eq, app_nil_r.
    destruct (nonempty u), (nonempty m), (nonempty p);
      try destruct (find_user _ _); reflexivity.
  - rewrite login_eq, app_nil_r. reflexivity.
  - rewrite make_call_eq.
    destruct (nonempty v) as [phone|]; [|rewrite app_nil_r; reflexivity].
    destruct (truthy (ELEVENLABS_API_KEY env));
      [|rewrite app_nil_r; reflexivity].
    cbv zeta. simpl negb. cbv iota.
    destruct (provider _ _) as [d|e]; [|reflexivity].
    destruct (nonempty (conversation_id d)) as [c|]; [|reflexivity].
    destruct (find_session c (sessions w)); reflexivity.
  - rewrite call_status_eq, app_nil_r. reflexivity.
  - rewrite end_call_eq. cbv zeta.
    destruct (provider _ _); [|reflexivity].
    destruct (find_session c (sessions w)); reflexivity.
  - rewrite app_nil_r. reflexivity.
Qed.

(** X8: the requests sent to the provider while a script is served are
    fixed by the script's requests and keys alone, whatever the provider
    answers and whatever is stored: a make-call with a phone number and a
    configured key sends one start-call request (timeout 30000), an
    end-call always sends one end request, even with no key and no
    session, and nothing else sends anything.  Earlier requests stay in
    the trace. *)
Theorem provider_traffic_of_script script w :
  outbound (run script w)
  = (outbound w
     ++ flat_map (fun er => provider_requests (fst er) (snd er)) script)%list.
Proof.
  revert w. induction script as [|[env rq] rest IH]; simpl; intros w.
  - rewrite app_nil_r. reflexivity.
  - rewrite IH, step_outbound, app_assoc. reflexivity.
Qed.

(** ** What stays once stored *)

Lemma step_find_user env rq w name x :
  find_user name (users w) = Some x ->
  find_user name (users (step env rq w)) = Some x.
Proof.
  intros Hf.
  destruct (step_cases env rq w)
    as [(Eu & _) | [(n & m & p & _ & _ & _ & _ & _ & Eu & _)
                   | [(c & ph & _ & _ & _ & _ & _ & Eu & _)
                     | (c & s & _ & _ & _ & Eu & _)]]];
    rewrite Eu; auto.
  rewrite find_user_app, Hf. reflexivity.
Qed.

Lemma run_find_user script w name x :
  find_user name (users w) = Some x ->
  find_user name (users (run script w)) = Some x.
Proof.
  revert w. induction script as [|[env rq] rest IH]; simpl; intros w Hf.
  - exact Hf.
  - apply IH, step_find_user, Hf.
Qed.

(** X6: once a registration is answered with success, then after any
    further requests whatsoever the user is still stored with the
    password as given: login with that password succeeds and returns the
    registered mobile number, login with any other password fails, and
    registering the name again fails and changes no user. *)
Theorem registered_user_logs_in_later env w name mob pw script :
  respond env (POST_register (Some name) (Some mob) (Some pw)) w
    = Some (res_json (UserOk name mob)) ->
  let w' := run script
              (step env (POST_register (Some name) (Some mob) (Some pw)) w) in
  find_user name (users w')
    = Some {| username := name; mobile := mob; password := pw |}
  /\ (forall env',
        respond env' (POST_login (Some name) (Some pw)) w'
        = Some (res_json (UserOk name mob)))
  /\ (forall env' pw',
        pw' <> pw ->
        exists r,
          respond env' (POST_login (Some name) (Some pw')) w' = Some r
          /\ success r = false)
  /\ (forall env' m' p',
        exists r,
          respond env' (POST_register (Some name) m' p') w' = Some r
          /\ success r = false
          /\ step env' (POST_register (Some name) m' p') w' = w').
Proof.
  intros Hr w'.
  assert (Hn : nonempty (Some name) = Some name
               /\ nonempty (Some pw) = Some pw
               /\ find_user name (users w') 
                  = Some {| username := name; mobile := mob; password := pw |}).
  { unfold w', step. unfold respond in Hr. rewrite register_eq in *.
    destruct (nonempty (Some name)) as [n|] eqn:Hname; [|discriminate Hr].
    destruct (nonempty (Some mob)) as [m|] eqn:Hmob; [|discriminate Hr].
    destruct (nonempty (Some pw)) as [p|] eqn:Hpw; [|discriminate Hr].
    apply nonempty_Some in Hname as [[= <-] _], Hmob as [[= <-] _],
        Hpw as [[= <-] _].
    destruct (find_user name (users w)) eqn:Hf; [discriminate Hr|].
    repeat split. apply run_find_user. cbn [snd users set_users].
    rewrite find_user_app, Hf. cbn [username]. rewrite String.eqb_refl.
    reflexivity. }
  destruct Hn as (Hname & Hpw & Hf).
  split; [exact Hf|]. split; [|split].
  - intros env'. unfold respond. rewrite login_eq. cbn [fst].
    rewrite Hname, Hpw, Hf. cbn [password]. rewrite String.eqb_refl.
    reflexivity.
  - intros env' pw' Hne. unfold respond. rewrite login_eq. cbn [fst].
    rewrite Hname, Hf. cbn [password].
    destruct (nonempty (Some pw')) as [p|] eqn:Hp';
      [|eexists; split; reflexivity].
    apply nonempty_Some in Hp' as [[= <-] _].
    destruct (String.eqb_spec pw pw'); [congruence|].
    eexists; split; reflexivity.
  - intros env' m' p'. unfold respond, step. rewrite register_eq, Hname.
    destruct (nonempty m'), (nonempty p'); try rewrite Hf;
      eexists; repeat split.
Qed.

Lemma registered_user_logs_in_later_witness :
  respond (env_at 9999) (POST_login (Some "alice") (Some "s3cret"))
    (run [(env_at 1500, call_sample);
          (env_at 2000, POST_register (Some "alice") (Some "1") (Some "x"))]
       (step (env_at 1000) register_alice init))
  = Some (res_json (UserOk "alice" "+15550001111")).
Proof.
  apply (registered_user_logs_in_later (env_at 1000) init
           "alice" "+15550001111" "s3cret"
           [(env_at 1500, call_sample);
            (env_at 2000, POST_register (Some "alice") (Some "1") (Some "x"))]
           eq_refl).
Defined.

(** X15: no request removes or rewrites a stored user: after any script
    the users are the earlier users followed by the newly registered
    ones, at most one per register request. *)
Theorem users_only_appended script w :
  exists added,
    users (run script w) = (users w ++ added)%list
    /\ (length added
        <= length (filter (fun er => is_register (snd er)) script))%nat.
Proof.
  revert w. induction script as [|[env rq] rest IH]; simpl; intros w.
  - exists []. rewrite app_nil_r. auto.
  - destruct (IH (step env rq w)) as (added & Ha & Hl). rewrite Ha.
    destruct (step_cases env rq w)
      as [(Eu & _) | [(n & m & p & Hreg & _ & _ & _ & _ & Eu & _)
                     | [(c & ph & _ & _ & _ & _ & _ & Eu & _)
                       | (c & s & _ & _ & _ & Eu & _)]]];
      rewrite Eu.
    + exists added. split; [reflexivity|].
      destruct (is_register rq); simpl; lia.
    + eexists (_ :: added). rewrite <- app_assoc. split; [reflexivity|].
      rewrite Hreg. simpl. lia.
    + exists added. split; [reflexivity|].
      destruct (is_register rq); simpl; lia.
    + exists added. split; [reflexivity|].
      destruct (is_register rq); simpl; lia.
Qed.

Lemma same_call_refl s : same_call s s.
Proof. repeat split; auto. Qed.

Lemma same_call_trans s1 s2 s3 :
  same_call s1 s2 -> same_call s2 s3 -> same_call s1 s3.
Proof.
  intros (A1 & A2 & A3 & A4 & A5 & A6 & A7) (B1 & B2 & B3 & B4 & B5 & B6 & B7).
  repeat split; try congruence. auto.
Qed.

Lemma step_find_session env rq w c s :
  consistent w ->
  find_session c (sessions w) = Some s ->
  find_session c (sessions (step env rq w)) = Some s
  \/ (rq = POST_end_call c
      /\ find_session c (sessions (step env rq w))
         = Some (end_session s (now env))).
Proof.
  intros [_ _ _ _ Hin _] Hf.
  destruct (step_cases env rq w)
    as [(_ & Es & _) | [(n & m & p & _ & _ & _ & _ & _ & _ & Es & _)
                       | [(c0 & ph & _ & _ & _ & _ & Es & _)
                         | (c0 & s0 & -> & Hf0 & Es & _)]]];
    rewrite Es; auto.
  - left. rewrite find_session_app, Hf. reflexivity.
  - destruct (String.eqb_spec c0 c) as [->|Hne].
    + right. split; [reflexivity|].
      rewrite Hf in Hf0. injection Hf0 as <-.
      apply find_session_update; [exact Hf|].
      apply (find_session_callId _ _ _ Hf).
    + left. rewrite <- Hf. apply find_session_map_other. intros x Hx.
      destruct (find_session_callId _ _ _ Hf0) as [Hs0 Hc0].
      destruct (Nat.eqb_spec (_id x) (_id s0)) as [E|E]; [right | left; auto].
      rewrite (NoDup_map_eq _id _ x s0 Hin Hx Hs0 E). simpl. rewrite Hc0.
      destruct (String.eqb_spec c0 c); [congruence | auto].
Qed.

(** X7: a session stored in a reachable world is never lost: after any
    further requests a session with the same [callId] is stored, with the
    same [_id], phone number, start time and log; if it was completed it
    is still completed; without an end-call in between it is unchanged;
    and a status lookup for it is answered with 200, never 404. *)
Theorem session_persists w c s script :
  reachable w ->
  find_session c (sessions w) = Some s ->
  exists s',
    find_session c (sessions (run script w)) = Some s'
    /\ same_call s s'
    /\ (no_end_call script = true -> s' = s)
    /\ (forall env,
          respond env (GET_call_status c) (run script w)
          = Some (res_json (StatusOk (status s') (duration s')
                                     (startTime s) (endTime s')))).
Proof.
  intros Hr Hf. apply reachable_consistent in Hr.
  assert (H : exists s',
             find_session c (sessions (run script w)) = Some s'
             /\ same_call s s'
             /\ (no_end_call script = true -> s' = s)).
  { revert w s Hr Hf.
    induction script as [|[env rq] rest IH]; simpl; intros w s Hw Hf.
    - exists s. auto using same_call_refl.
    - destruct (step_find_session env rq w c s Hw Hf) as [Hs | [-> Hs]];
        destruct (IH _ _ (step_consistent env _ w Hw) Hs)
          as (s' & Hf' & Hsame & Hno);
        exists s'; (split; [exact Hf'|]); split.
      + exact Hsame.
      + intros Hn. apply andb_true_iff in Hn as [_ Hn]. auto.
      + eapply same_call_trans; [|exact Hsame]. repeat split.
      + intros Hn. discriminate Hn. }
  destruct H as (s' & Hf' & Hsame & Hno).
  exists s'. repeat split; try apply Hsame; auto.
  intros env. unfold respond. rewrite call_status_eq. cbn [fst].
  rewrite Hf'. destruct Hsame as (_ & _ & _ & -> & _). reflexivity.
Qed.

Lemma session_persists_witness :
  exists s',
    find_session "abc123"
      (sessions (run [(env_at 2000, register_alice);
                      (env_at 4999, POST_end_call "abc123");
                      (env_at 6000, call_sample)] one_call)) = Some s'
    /\ startTime s' = 1500.
Proof.
  destruct (session_persists one_call "abc123"
              (initiated_session (env_at 1500) init "abc123" sample_phone)
              [(env_at 2000, register_alice);
               (env_at 4999, POST_end_call "abc123");
               (env_at 6000, call_sample)]
              one_call_reachable eq_refl)
    as (s' & Hf & (_ & _ & _ & Hst & _) & _).
  exists s'. split; [exact Hf | exact Hst].
Defined.

Lemma started_by_later t t' s : t <= t' -> started_by t s -> started_by t' s.
Proof. intros Hle (H1 & H2 & H3). repeat split; auto. lia. Qed.

Lemma step_started_by env rq w t :
  t <= now env ->
  Forall (started_by t) (sessions w) ->
  Forall (started_by (now env)) (sessions (step env rq w)).
Proof.
  intros Hle Hall.
  assert (Hold : Forall (started_by (now env)) (sessions w))
    by (eapply Forall_impl; [|exact Hall]; intros; eauto using started_by_later).
  destruct (step_sessions env rq w)
    as [Heq | [(c & phone & _ & _ & Heq) | (c & s & _ & Hf & Heq)]];
    rewrite Heq.
  - exact Hold.
  - apply Forall_app. split; [exact Hold|].
    repeat constructor; simpl; try lia; discriminate.
  - rewrite Forall_forall in *. intros y Hy.
    apply in_map_iff in Hy as (x & <- & Hx).
    destruct (_id x =? _id s)%nat; [|auto].
    destruct (find_session_callId _ _ _ Hf) as [Hs _].
    destruct (Hall s Hs) as (Hst & _).
    repeat split; simpl.
    + lia.
    + intros d [= <-]. apply Z.div_pos; lia.
    + intros e [= <-]. lia.
Qed.

(** X12: when the clock readings of a script never run backwards, every
    duration stored by serving it from the empty store is non-negative,
    and every stored end time is no earlier than its session's start
    time. *)
Theorem durations_nonnegative t script s :
  clock_from t script = true ->
  In s (sessions (run script init)) ->
  (forall d, duration s = Some d -> 0 <= d)
  /\ (forall e, endTime s = Some e -> startTime s <= e).
Proof.
  intros Hc Hin.
  assert (H : forall script t w,
             clock_from t script = true ->
             Forall (started_by t) (sessions w) ->
             exists t', Forall (started_by t') (sessions (run script w))).
  { clear. induction script as [|[env rq] rest IH]; simpl; intros t w Hc Hw.
    - exists t. exact Hw.
    - apply andb_true_iff in Hc as [Hle Hc]. apply Z.leb_le in Hle.
      apply (IH (now env)); [exact Hc|].
      apply step_started_by with (t := t); assumption. }
  destruct (H script t init Hc (Forall_nil _)) as (t' & Hall).
  rewrite Forall_forall in Hall. destruct (Hall s Hin) as (_ & Hd & He).
  split; assumption.
Qed.

Lemma durations_nonnegative_witness : 0 <= (4999 - 1500) / 1000.
Proof.
  apply (proj1 (durations_nonnegative 0
                  [(env_at 1500, call_sample);
                   (env_at 4999, POST_end_call "abc123")]
                  (end_session
                     (initiated_session (env_at 1500) init "abc123"
                        sample_phone) 4999)
                  eq_refl (or_introl eq_refl))).
  reflexivity.
Defined.

(** ** The status checker and the health check *)

Lemma run_outbound_urls script w rq :
  In rq (outbound (run script w)) ->
  In rq (outbound w)
  \/ url rq = "https://api.elevenlabs.io/v1/convai/twilio/outbound-call"
  \/ exists c,
       url rq = "https://api.elevenlabs.io/v1/convai/twilio/call/"
                  ++ c ++ "/end".
Proof.
  revert w. induction script as [|[env r] rest IH]; simpl; intros w Hin.
  - auto.
  - destruct (IH _ Hin) as [Hold | H]; [|auto].
    rewrite step_outbound in Hold.
    apply in_app_or in Hold as [Hold | Hnew]; [auto|]. right.
    destruct r as [u m p|u p|v|c|c|]; simpl in Hnew; try contradiction.
    + destruct (nonempty v); [|contradiction].
      destruct (truthy _); [|contradiction].
      destruct Hnew as [<- | []]. left. reflexivity.
    + destruct Hnew as [<- | []]. right. exists c. reflexivity.
Qed.

(** X13: the status checker sends exactly one request, to the provider's
    conversation URL with the configured key, and never throws: it
    returns the provider's data, or [undefined] when the request fails.
    It touches neither collection.  No handler uses it: no request to
    that URL is ever sent while serving a script. *)
Theorem checkCallStatus_returns_data_or_undefined env w c :
  (exists result,
     checkCallStatus c env w
       = (Returned result, sent (check_status_request env c) w)
     /\ (forall d,
           provider env (check_status_request env c) = Returned d ->
           result = Some d)
     /\ (forall e,
           provider env (check_status_request env c) = Thrown e ->
           result = None))
  /\ users (snd (checkCallStatus c env w)) = users w
  /\ sessions (snd (checkCallStatus c env w)) = sessions w
  /\ (forall script rq,
        In rq (outbound (run script init)) ->
        url rq <> url (check_status_request env c)).
Proof.
  unfold checkCallStatus, check_status_request, axios_get. unfold_M.
  cbn [ELEVENLABS_API_KEY url].
  split; [|split; [|split]].
  - destruct (provider env _) as [d|e] eqn:Hp; eexists;
      (split; [reflexivity|]); split; congruence.
  - destruct (provider env _); reflexivity.
  - destruct (provider env _); reflexivity.
  - intros script rq Hin.
    destruct (run_outbound_urls _ _ _ Hin) as [[] | [-> | (c' & ->)]];
      simpl; discriminate.
Qed.

Lemma checkCallStatus_returns_data_or_undefined_witness :
  fst (checkCallStatus "abc123" (env_at 1500) one_call)
    = Returned (Some {| conversation_id := Some "abc123"; payload := "{}" |})
  /\ fst (checkCallStatus "abc123" env_rate_limited one_call) = Returned None.
Proof.
  split.
  - destruct (proj1 (checkCallStatus_returns_data_or_undefined
                       (env_at 1500) one_call "abc123"))
      as (result & -> & Hok & _).
    rewrite (Hok _ eq_refl). reflexivity.
  - destruct (proj1 (checkCallStatus_returns_data_or_undefined
                       env_rate_limited one_call "abc123"))
      as (result & -> & _ & Hfail).
    rewrite (Hfail _ eq_refl). reflexivity.
Defined.

(** X14: the health check changes nothing and reports the clock reading
    and whether the key is configured; what it reports is what make-call
    acts on: with a phone number given, the start-call request goes out
    exactly when the health check says the key is configured, and
    otherwise make-call answers 500 and leaves the world as it was. *)
Theorem health_reports_configuration env w :
  exists configured,
    respond env GET_health w
      = Some (res_json (Health "FINAL Grammar Guru Call App is running"
                               (now env) configured))
    /\ step env GET_health w = w
    /\ (forall phone,
          phone <> "" ->
          (configured = true <->
           outbound (step env (POST_make_call (Some phone)) w)
           = (outbound w ++ [start_call_request env phone])%list)
          /\ (configured = false ->
              statusCode_of (respond env (POST_make_call (Some phone)) w)
                = Some 500
              /\ step env (POST_make_call (Some phone)) w = w)).
Proof.
  exists (truthy (ELEVENLABS_API_KEY env)).
  split; [reflexivity|]. split; [reflexivity|].
  intros phone Hphone. rewrite step_outbound. unfold respond, step.
  rewrite make_call_eq. cbn [provider_requests].
  rewrite (nonempty_intro _ Hphone).
  destruct (truthy (ELEVENLABS_API_KEY env)); simpl negb; cbv iota.
  - split; [tauto | discriminate].
  - split; [|intros _; split; reflexivity].
    split; [discriminate|]. rewrite app_nil_r. intros H.
    apply (f_equal (@length _)) in H. rewrite length_app in H.
    simpl in H. lia.
Qed.

Lemma health_reports_configuration_witness :
  respond env_unconfigured GET_health one_call
    = Some (res_json (Health "FINAL Grammar Guru Call App is running"
                             1500 false))
  /\ step env_unconfigured call_sample one_call = one_call.
Proof.
  destruct (health_reports_configuration env_unconfigured one_call)
    as (configured & Hr & _ & Hcall).
  injection Hr as <-. split; [reflexivity|].
  assert (Hp : sample_phone <> "") by discriminate.
  exact (proj2 (proj2 (Hcall sample_phone Hp) eq_refl)).
Defined.

(** X16: when the provider accepts the start-call request but its answer
    carries no usable conversation id (none, an empty one, or one a
    stored session already has), the call has been requested from the
    provider, yet no session is recorded for it and the answer is a 500
    failure. *)
Theorem make_call_untracked_call env w phone d :
  phone <> "" ->
  truthy (ELEVENLABS_API_KEY env) = true ->
  provider env (start_call_request env phone) = Returned d ->
  (nonempty (conversation_id d) = None
   \/ exists c s, conversation_id d = Some c
                  /\ find_session c (sessions w) = Some s) ->
  (exists r,
     respond env (POST_make_call (Some phone)) w = Some r
     /\ statusCode r = 500 /\ success r = false)
  /\ sessions (step env (POST_make_call (Some phone)) w) = sessions w
  /\ outbound (step env (POST_make_call (Some phone)) w)
     = (outbound w ++ [start_call_request env phone])%list.
Proof.
  intros Hphone Hkey Hp Hid. unfold respond, step.
  rewrite make_call_eq, (nonempty_intro _ Hphone), Hkey. cbv zeta.
  simpl negb. cbv iota. rewrite Hp.
  destruct Hid as [-> | (c & s & Hc & Hf)].
  - split; [eexists|]; repeat split.
  - destruct (nonempty (conversation_id d)) as [c'|] eqn:Hc'.
    + apply nonempty_Some in Hc' as [Hc' _].
      rewrite Hc in Hc'. injection Hc' as <-. rewrite Hf.
      split; [eexists|]; repeat split.
    + split; [eexists|]; repeat split.
Qed.

Lemma make_call_untracked_call_witness :
  sessions (step (env_at 2000) call_sample one_call) = sessions one_call
  /\ length (outbound (step (env_at 2000) call_sample one_call)) = 2%nat.
Proof.
  assert (Hp : sample_phone <> "") by discriminate.
  destruct (make_call_untracked_call (env_at 2000) one_call sample_phone
              {| conversation_id := Some "abc123"; payload := "{}" |}
              Hp eq_refl eq_refl
              (or_intror
                 (ex_intro _ "abc123"
                    (ex_intro _
                       (initiated_session (env_at 1500) init "abc123"
                          sample_phone)
                       (conj eq_refl eq_refl)))))
    as (_ & Hs & Ho).
  split; [exact Hs|]. unfold call_sample. rewrite Ho. reflexivity.
Defined.
